(** * Studium-Tracker: a shallow embedding of [app.py] and [models.py]

    The development follows the two source files of the repository:
    - [models.py]: the three tables ([Module], [LearningSession],
      [AIRecommendation]) with their derived fields and serialisers;
    - [app.py]: the request handlers, each of them a [try] block whose
      [except Exception] arm rolls the transaction back and answers 500.

    A handler is a function from the world (the committed rows and the
    requests sent to the generative-AI service) to a new world and a
    reply. Its inputs are what the framework hands to the Python code:
    the value [request.get_json()] returns, the converted URL and query
    parameters, the clock, the configuration and the answer of the
    external service.

    Library code that the repository only calls (float arithmetic, the
    [datetime] parser and printers, exception texts) is a parameter of the
    development, gathered in the class [PyRuntime]; the calendar
    arithmetic of [datetime.date] is written out. The store is the one the
    application configures by default, SQLite behind the ORM: a new row
    takes the largest key plus one, a NaN sent to a NOT NULL column is
    refused, a negative LIMIT is no limit. The store's integers have 64
    bits: a key from the body or a limit from the query string beyond
    them raises OverflowError when it is bound to a statement. (A key
    from the URL beyond them is answered 500 by the same [except] arm
    that answers an unknown key, with another text; [get_or_404] does
    not tell the two apart.) Where a JSON value of another type than the
    column's would reach the SQL driver (a number for a text, a text, a
    float or a boolean for a key), the outcome depends on the driver's
    coercions and is [OutOfModel]: what is proved of a request says so
    where it leaves these out. *)

From Stdlib Require Import ZArith List String Ascii Bool Lia.
From Stdlib Require Import Permutation Sorted QArith Qround.
From Stdlib Require Import DecimalString.
Import ListNotations.

Set Warnings "-register-all".

Local Open Scope string_scope.
Local Open Scope Z_scope.

(* ================================================================== *)
(** * The proleptic Gregorian calendar of [datetime.date] *)
(* ================================================================== *)

Module Calendar.

(** A [datetime.date] value: the three fields the class stores. *)
Record date : Type := mkDate { year : Z; month : Z; day : Z }.

Definition is_leap (y : Z) : bool :=
  (y mod 4 =? 0) && (negb (y mod 100 =? 0) || (y mod 400 =? 0)).

(** [_DAYS_IN_MONTH] and [_DAYS_BEFORE_MONTH], indexed from 1. *)
Definition DAYS_IN_MONTH : list Z :=
  [-1; 31; 28; 31; 30; 31; 30; 31; 31; 30; 31; 30; 31].

Definition DAYS_BEFORE_MONTH : list Z :=
  [-1; 0; 31; 59; 90; 120; 151; 181; 212; 243; 273; 304; 334].

Definition tbl (t : list Z) (i : Z) : Z := nth (Z.to_nat i) t 0.

Definition b2z (b : bool) : Z := if b then 1 else 0.

Definition days_before_year (y : Z) : Z :=
  let y' := y - 1 in y' * 365 + y' / 4 - y' / 100 + y' / 400.

Definition days_in_month (y m : Z) : Z :=
  if (m =? 2) && is_leap y then 29 else tbl DAYS_IN_MONTH m.

Definition days_before_month (y m : Z) : Z :=
  tbl DAYS_BEFORE_MONTH m + b2z ((2 <? m) && is_leap y).

Definition ymd2ord (y m d : Z) : Z :=
  days_before_year y + days_before_month y m + d.

Definition DI400Y : Z := 146097.
Definition DI100Y : Z := 36524.
Definition DI4Y : Z := 1461.
Definition MAXORDINAL : Z := 3652059.
Definition MINYEAR : Z := 1.
Definition MAXYEAR : Z := 9999.

(** [_ord2ymd]: the date whose ordinal is [n], 0001-01-01 being day 1. *)
Definition ord2ymd (n : Z) : date :=
  let n := n - 1 in
  let n400 := n / DI400Y in
  let n := n mod DI400Y in
  let y := n400 * 400 + 1 in
  let n100 := n / DI100Y in
  let n := n mod DI100Y in
  let n4 := n / DI4Y in
  let n := n mod DI4Y in
  let n1 := n / 365 in
  let n := n mod 365 in
  let y := y + n100 * 100 + n4 * 4 + n1 in
  if (n1 =? 4) || (n100 =? 4) then mkDate (y - 1) 12 31
  else
    let leapyear := (n1 =? 3) && (negb (n4 =? 24) || (n100 =? 3)) in
    let m := Z.shiftr (n + 50) 5 in
    let preceding := tbl DAYS_BEFORE_MONTH m + b2z ((2 <? m) && leapyear) in
    if n <? preceding then
      let m' := m - 1 in
      let preceding' :=
        preceding - (tbl DAYS_IN_MONTH m' + b2z ((m' =? 2) && leapyear)) in
      mkDate y m' (n - preceding' + 1)
    else mkDate y m (n - preceding + 1).

(** The constructor's range check ([_check_date_fields]). *)
Definition valid_dateb (d : date) : bool :=
  (MINYEAR <=? year d) && (year d <=? MAXYEAR) &&
  (1 <=? month d) && (month d <=? 12) &&
  (1 <=? day d) && (day d <=? days_in_month (year d) (month d)).

Definition valid_date (d : date) : Prop := valid_dateb d = true.

Definition toordinal (d : date) : Z := ymd2ord (year d) (month d) (day d).

Definition fromordinal (n : Z) : date := ord2ymd n.

(** [date.weekday()]: Monday is 0, Sunday is 6. *)
Definition weekday (d : date) : Z := (toordinal d + 6) mod 7.

(** Dates compare as the triples (year, month, day); the ISO text the
    store keeps for a [Date] column orders the same way. *)
Definition date_leb (a b : date) : bool :=
  (year a <? year b) ||
  ((year a =? year b) &&
   ((month a <? month b) || ((month a =? month b) && (day a <=? day b)))).

Definition date_eqb (a b : date) : bool :=
  (year a =? year b) && (month a =? month b) && (day a =? day b).

(** [d - timedelta(days=k)]; [None] stands for the OverflowError of a
    result outside 1..MAXORDINAL. *)
Definition sub_days (d : date) (k : Z) : option date :=
  let o := toordinal d - k in
  if (0 <? o) && (o <=? MAXORDINAL) then Some (fromordinal o) else None.

(** [d.replace(day=k)]; [None] stands for the constructor's ValueError. *)
Definition replace_day (d : date) (k : Z) : option date :=
  let d' := mkDate (year d) (month d) k in
  if valid_dateb d' then Some d' else None.

(** The month and day that [ord2ymd] reads off a day-of-year [r], counted
    from 0, given the first guess [m] for the month. *)
Definition yday_split (leap : bool) (r m : Z) : Z * Z :=
  let preceding := tbl DAYS_BEFORE_MONTH m + b2z ((2 <? m) && leap) in
  if r <? preceding then
    let m' := m - 1 in
    (m', r - (preceding - (tbl DAYS_IN_MONTH m' + b2z ((m' =? 2) && leap))) + 1)
  else (m, r - preceding + 1).

End Calendar.
Import Calendar.


(* ================================================================== *)
(** * Python values, exceptions and the runtime the code relies on *)
(* ================================================================== *)

(** The exceptions that can travel through a handler's [try] block. *)
Inductive exn : Type :=
| TypeError
| KeyError
| ValueError
| AttributeError
| ZeroDivisionError
| OverflowError
| NotFound                 (* werkzeug's HTTPException raised by abort(404) *)
| BadRequest               (* werkzeug's HTTPException raised by get_json() *)
| IntegrityError           (* a NOT NULL constraint refused at commit *)
| UpstreamError (msg : string)   (* raised by the generative-AI client *)
| PyException (msg : string).    (* [raise Exception(msg)] *)

(** What the interpreter and its libraries provide and the repository only
    uses: binary floating point, the [datetime] text conversions and the
    texts of built-in exceptions. *)
Class PyRuntime : Type := {
  float : Type;
  f_of_Z : Z -> float;                  (* the float nearest to an int *)
  f_of_str : string -> option float;    (* float(str); None: ValueError *)
  f_sub : float -> float -> float;
  f_mul : float -> float -> float;
  f_div : float -> float -> float;
  f_eqb : float -> float -> bool;
  f_ltb : float -> float -> bool;
  f_leb : float -> float -> bool;
  f_is_nan : float -> bool;
  f_sum : list float -> float;          (* builtin sum over a non-empty run *)
  f_round : float -> Z -> float;        (* round(x, ndigits) *)
  f_str : float -> string;              (* str(x), as an f-string prints it *)
  strptime_ymd : string -> option date; (* strptime(s, '%Y-%m-%d').date() *)
  strftime_dmy : date -> string;        (* d.strftime('%d.%m.%Y') *)
  dt_isoformat : Z -> string;           (* datetime.isoformat() *)
  exn_text : exn -> string              (* str(e) of a library exception *)
}.

Inductive result (A : Type) : Type :=
| Ok (a : A)
| Raise (e : exn)
| OutOfModel.   (* the SQL driver was handed a value of a foreign type *)
Arguments Ok {A} a.
Arguments Raise {A} e.
Arguments OutOfModel {A}.

Definition dquote : string := String "034"%char EmptyString.
Definition newline : string := String "010"%char EmptyString.

Definition str_of_Z (z : Z) : string := NilZero.string_of_int (Z.to_int z).

Fixpoint zero_pad (fuel : nat) (s : string) : string :=
  match fuel with
  | O => s
  | S k => zero_pad k ("0" ++ s)
  end.

(** [%0wd] for a non-negative number. *)
Definition pad_num (w : nat) (z : Z) : string :=
  let s := str_of_Z z in zero_pad (w - String.length s) s.

(** [date.isoformat()]. *)
Definition date_isoformat (d : date) : string :=
  pad_num 4 (year d) ++ "-" ++ pad_num 2 (month d) ++ "-" ++ pad_num 2 (day d).

(** Ordering a query by a key, greatest first; rows with equal keys keep
    the order of the table. *)
Fixpoint insert_desc {A K : Type} (ltb : K -> K -> bool) (key : A -> K)
  (x : A) (l : list A) : list A :=
  match l with
  | [] => [x]
  | y :: ys =>
      if ltb (key x) (key y) then y :: insert_desc ltb key x ys
      else x :: y :: ys
  end.

Fixpoint order_by_desc {A K : Type} (ltb : K -> K -> bool) (key : A -> K)
  (l : list A) : list A :=
  match l with
  | [] => []
  | x :: xs => insert_desc ltb key x (order_by_desc ltb key xs)
  end.

Definition date_ltb (a b : date) : bool := negb (date_leb b a).

(** [a] may stand before [b] in a descending order by [key]. *)
Definition not_below {A K : Type} (ltb : K -> K -> bool) (key : A -> K)
  (a b : A) : Prop :=
  ltb (key a) (key b) = false.

(** The texts of a list, one after the other. *)
Definition join (parts : list string) : string :=
  fold_right String.append "" parts.

Section Model.

Context {RT : PyRuntime}.

(** ** Values *)

Inductive pyval : Type :=
| VNone
| VBool (b : bool)
| VInt (z : Z)
| VFloat (x : float)
| VStr (s : string)
| VList (l : list pyval)
| VDict (kv : list (string * pyval)).

(** A number as the derived fields produce it: [sum] of nothing and
    [return 0] are ints, everything else is a float. *)
Inductive pynum : Type :=
| PInt (z : Z)
| PFloat (x : float).

Definition num_val (n : pynum) : pyval :=
  match n with PInt z => VInt z | PFloat x => VFloat x end.

Definition f_zero : float := f_of_Z 0.

(** [bool(v)]. *)
Definition truthy (v : pyval) : bool :=
  match v with
  | VNone => false
  | VBool b => b
  | VInt z => negb (z =? 0)
  | VFloat x => negb (f_eqb x f_zero)
  | VStr s => negb (String.length s =? 0)%nat
  | VList l => negb (List.length l =? 0)%nat
  | VDict kv => negb (List.length kv =? 0)%nat
  end.

Fixpoint dict_get (kv : list (string * pyval)) (k : string) : option pyval :=
  match kv with
  | [] => None
  | (k', v) :: rest => if String.eqb k' k then Some v else dict_get rest k
  end.

Definition is_str (k : string) (v : pyval) : bool :=
  match v with VStr s => String.eqb s k | _ => false end.

Definition is_substring (k s : string) : bool :=
  match String.index 0 k s with Some _ => true | None => false end.

(** [k in v] for a string [k]. *)
Definition py_in (k : string) (v : pyval) : result bool :=
  match v with
  | VDict kv => Ok (match dict_get kv k with Some _ => true | None => false end)
  | VList l => Ok (existsb (is_str k) l)
  | VStr s => Ok (is_substring k s)
  | _ => Raise TypeError
  end.

(** [v[k]] for a string [k]. *)
Definition py_getitem (v : pyval) (k : string) : result pyval :=
  match v with
  | VDict kv =>
      match dict_get kv k with Some x => Ok x | None => Raise KeyError end
  | _ => Raise TypeError
  end.

(** [v.get(k, default)]. *)
Definition py_get (v : pyval) (k : string) (default : pyval) : result pyval :=
  match v with
  | VDict kv =>
      Ok (match dict_get kv k with Some x => x | None => default end)
  | _ => Raise AttributeError
  end.

(** [v < 0] and [v <= 0]: numbers compare, anything else is a TypeError. *)
Definition py_lt0 (v : pyval) : result bool :=
  match v with
  | VBool _ => Ok false
  | VInt z => Ok (z <? 0)
  | VFloat x => Ok (f_ltb x f_zero)
  | _ => Raise TypeError
  end.

Definition py_le0 (v : pyval) : result bool :=
  match v with
  | VBool b => Ok (negb b)
  | VInt z => Ok (z <=? 0)
  | VFloat x => Ok (f_leb x f_zero)
  | _ => Raise TypeError
  end.

(** An int converts to a float unless it rounds beyond the largest
    double, 2^1024 - 2^971. *)
Definition FLOAT_LIMIT : Z := 2 ^ 1024 - 2 ^ 970.

Definition int_to_float (z : Z) : result float :=
  if FLOAT_LIMIT <=? Z.abs z then Raise OverflowError else Ok (f_of_Z z).

(** [float(v)]. *)
Definition py_float (v : pyval) : result float :=
  match v with
  | VBool b => Ok (f_of_Z (if b then 1 else 0))
  | VInt z => int_to_float z
  | VFloat x => Ok x
  | VStr s =>
      match f_of_str s with Some x => Ok x | None => Raise ValueError end
  | _ => Raise TypeError
  end.

Definition num_to_float (n : pynum) : result float :=
  match n with PInt z => int_to_float z | PFloat x => Ok x end.

(** [round(n, ndigits)] with [ndigits >= 0]: an int is returned as is. *)
Definition py_round (n : pynum) (ndigits : Z) : pynum :=
  match n with
  | PInt z => PInt z
  | PFloat x => PFloat (f_round x ndigits)
  end.

(** [sum(x for x in xs)] over floats: the start value is the int 0. *)
Definition py_sum (xs : list float) : pynum :=
  match xs with
  | [] => PInt 0
  | _ => PFloat (f_sum xs)
  end.

Definition num_str (n : pynum) : string :=
  match n with PInt z => str_of_Z z | PFloat x => f_str x end.

Definition str_exn (e : exn) : string :=
  match e with
  | PyException msg => msg
  | UpstreamError msg => msg
  | _ => exn_text e
  end.

(** ** Errors and state: the monad of a request handler *)

Definition rbind {A B : Type} (r : result A) (k : A -> result B) : result B :=
match r with
| Ok a => k a
| Raise e => Raise e
| OutOfModel => OutOfModel
end.

(** ** The three tables of [models.py] *)

Record ModuleRow : Type := {
  mod_id : Z;
  mod_name : string;
  mod_target_hours : float;
  mod_exam_date : option date;
  mod_created_at : Z
}.

Record LearningSession : Type := {
  ses_id : Z;
  ses_module_id : Z;
  ses_duration : float;
  ses_date : date;
  ses_notes : option string;
  ses_created_at : Z
}.

Record AIRecommendation : Type := {
  rec_id : Z;
  rec_text : string;
  rec_created_at : Z
}.

(** One request sent to the generative-AI service. *)
Record gemini_call : Type := {
  call_model : string;
  call_prompt : string;
  call_temperature : float;
  call_max_tokens : Z
}.

(** Everything a handler can change: the committed rows and the requests
    that have left the process. *)
Record world : Type := {
  modules : list ModuleRow;
  learning_sessions : list LearningSession;
  ai_recommendations : list AIRecommendation;
  gemini_calls : list gemini_call
}.

Definition empty_world : world :=
  {| modules := []; learning_sessions := []; ai_recommendations := [];
     gemini_calls := [] |}.

Definition set_modules (ms : list ModuleRow) (w : world) : world :=
  {| modules := ms;
     learning_sessions := learning_sessions w;
     ai_recommendations := ai_recommendations w;
     gemini_calls := gemini_calls w |}.

Definition set_sessions (ss : list LearningSession) (w : world) : world :=
  {| modules := modules w;
     learning_sessions := ss;
     ai_recommendations := ai_recommendations w;
     gemini_calls := gemini_calls w |}.

Definition set_recommendations (rs : list AIRecommendation) (w : world)
  : world :=
  {| modules := modules w;
     learning_sessions := learning_sessions w;
     ai_recommendations := rs;
     gemini_calls := gemini_calls w |}.

Definition set_calls (cs : list gemini_call) (w : world) : world :=
  {| modules := modules w;
     learning_sessions := learning_sessions w;
     ai_recommendations := ai_recommendations w;
     gemini_calls := cs |}.

Definition M (A : Type) : Type := world -> world * result A.

Definition ret {A : Type} (a : A) : M A := fun w => (w, Ok a).

Definition bind {A B : Type} (c : M A) (k : A -> M B) : M B :=
fun w =>
  match c w with
  | (w', Ok a) => k a w'
  | (w', Raise e) => (w', Raise e)
  | (w', OutOfModel) => (w', OutOfModel)
  end.

Definition lift {A : Type} (r : result A) : M A := fun w => (w, r).

Definition raise {A : Type} (e : exn) : M A := lift (Raise e).

Definition read : M world := fun w => (w, Ok w).

End Model.

Declare Scope py_scope.
Delimit Scope py_scope with py.
Notation "x <- c ;; k" := (bind c (fun x => k))
  (at level 61, c at next level, right associativity) : py_scope.
Notation "x <~ c ;; k" := (rbind c (fun x => k))
  (at level 61, c at next level, right associativity) : py_scope.
Local Open Scope py_scope.

Section Tracker.

Context {RT : PyRuntime}.

Record response : Type := { status : Z; body : pyval }.

(** [jsonify(body), status]. *)
Definition respond (body : pyval) (status : Z) : response :=
  {| status := status; body := body |}.

(** [try: ... except Exception as e: ...; db.session.rollback()]: every
    exception of the block is answered by [on_exn]; the rollback discards
    nothing that a commit has already written. *)
Definition try_except (block : M response) (on_exn : exn -> response)
  : M response :=
fun w =>
  match block w with
  | (w', Raise e) => (w', Ok (on_exn e))
  | other => other
  end.

Definition error_500 (e : exn) : response :=
respond (VDict [("error", VStr (str_exn e))]) 500.

(** [@app.errorhandler(404)] and [@app.errorhandler(500)]: the replies to
    the exceptions no view catches. *)
Definition not_found : response :=
respond (VDict [("error", VStr "Ressource nicht gefunden")]) 404.

Definition internal_error : response :=
respond (VDict [("error", VStr "Interner Serverfehler")]) 500.

(** ** [models.py] *)

(** The primary key the store gives a new row: one more than the largest
    key in the table. *)
Definition next_id (ids : list Z) : Z := 1 + fold_right Z.max 0 ids.

(** [Module.sessions] *)
Definition sessions_of (w : world) (m : ModuleRow) : list LearningSession :=
filter (fun s => ses_module_id s =? mod_id m) (learning_sessions w).

(** [LearningSession.module] *)
Definition module_of (w : world) (s : LearningSession) : option ModuleRow :=
find (fun m => mod_id m =? ses_module_id s) (modules w).

Definition get_actual_hours (w : world) (m : ModuleRow) : pynum :=
let total := py_sum (map ses_duration (sessions_of w m)) in
py_round total 2.

(** [a / t] with a float divisor. *)
Definition truediv (a t : float) : result float :=
if f_eqb t f_zero then Raise ZeroDivisionError else Ok (f_div a t).

Definition get_progress_percentage (w : world) (m : ModuleRow)
  : result pynum :=
if f_eqb (mod_target_hours m) f_zero then Ok (PInt 0)
else
  a <~ num_to_float (get_actual_hours w m) ;;
  q <~ truediv a (mod_target_hours m) ;;
  h <~ int_to_float 100 ;;
  Ok (py_round (PFloat (f_mul q h)) 1).

Definition opt_str (o : option string) : pyval :=
match o with Some s => VStr s | None => VNone end.

Definition LearningSession_to_dict (w : world) (s : LearningSession) : pyval :=
VDict [
  ("id", VInt (ses_id s));
  ("module_id", VInt (ses_module_id s));
  ("module_name",
     match module_of w s with Some m => VStr (mod_name m) | None => VNone end);
  ("duration", VFloat (ses_duration s));
  ("date", VStr (date_isoformat (ses_date s)));
  ("notes", opt_str (ses_notes s));
  ("created_at", VStr (dt_isoformat (ses_created_at s)))
].

Definition Module_to_dict (w : world) (m : ModuleRow) (include_sessions : bool)
  : result pyval :=
let actual := get_actual_hours w m in
p <~ get_progress_percentage w m ;;
let data := [
  ("id", VInt (mod_id m));
  ("name", VStr (mod_name m));
  ("target_hours", VFloat (mod_target_hours m));
  ("exam_date",
     match mod_exam_date m with
     | Some d => VStr (date_isoformat d)
     | None => VNone
     end);
  ("created_at", VStr (dt_isoformat (mod_created_at m)));
  ("actual_hours", num_val actual);
  ("progress_percentage", num_val p)
] in
Ok (VDict
      (if include_sessions
       then data ++
            [("sessions",
              VList (map (LearningSession_to_dict w) (sessions_of w m)))]
       else data)).

Definition AIRecommendation_to_dict (r : AIRecommendation) : pyval :=
VDict [
  ("id", VInt (rec_id r));
  ("recommendation_text", VStr (rec_text r));
  ("created_at", VStr (dt_isoformat (rec_created_at r)))
].

(** [[x.to_dict() for x in xs]] *)
Fixpoint modules_to_dicts (w : world) (ms : list ModuleRow)
  : result (list pyval) :=
match ms with
| [] => Ok []
| m :: rest =>
    d <~ Module_to_dict w m false ;;
    ds <~ modules_to_dicts w rest ;;
    Ok (d :: ds)
end.

(** ** The session and query operations the handlers call *)

Definition find_module (w : world) (i : Z) : option ModuleRow :=
find (fun m => mod_id m =? i) (modules w).

Definition find_session (w : world) (i : Z) : option LearningSession :=
find (fun s => ses_id s =? i) (learning_sessions w).

(** The store's INTEGER is a signed 64-bit number: binding a Python int
    beyond it to a statement raises OverflowError in the driver. *)
Definition INT64_MIN : Z := - 2 ^ 63.
Definition INT64_MAX : Z := 2 ^ 63 - 1.

Definition bind_int (z : Z) : result Z :=
if (INT64_MIN <=? z) && (z <=? INT64_MAX) then Ok z else Raise OverflowError.

(** [Module.query.get(v)]: an int is bound and looked up, [None]
    identifies no row; the store's coercion of any other value (a text,
    a float, a boolean) is outside the model. *)
Definition Module_query_get (v : pyval) : M (option ModuleRow) :=
fun w =>
  match v with
  | VInt z => (w, k <~ bind_int z ;; Ok (find_module w k))
  | VNone => (w, Ok None)
  | _ => (w, OutOfModel)
  end.

(** [get_or_404] aborts with werkzeug's NotFound, an [Exception]. *)
Definition Module_get_or_404 (i : Z) : M ModuleRow :=
fun w =>
  match find_module w i with
  | Some m => (w, Ok m)
  | None => (w, Raise NotFound)
  end.

Definition LearningSession_get_or_404 (i : Z) : M LearningSession :=
fun w =>
  match find_session w i with
  | Some s => (w, Ok s)
  | None => (w, Raise NotFound)
  end.

(** [db.session.add(Module(...)); db.session.commit()]. [name] and
    [target_hours] are NOT NULL; the store keeps a NaN as NULL. *)
Definition commit_new_module (name : pyval) (target : float)
  (exam : option date) (now : Z) : M ModuleRow :=
fun w =>
  match name with
  | VStr n =>
      if f_is_nan target then (w, Raise IntegrityError)
      else
        let m := {| mod_id := next_id (map mod_id (modules w));
                    mod_name := n;
                    mod_target_hours := target;
                    mod_exam_date := exam;
                    mod_created_at := now |} in
        (set_modules (modules w ++ [m]) w, Ok m)
  | VNone => (w, Raise IntegrityError)
  | _ => (w, OutOfModel)
  end.

(** [db.session.add(LearningSession(...)); db.session.commit()]. *)
Definition commit_new_session (module_id : pyval) (duration : float)
  (d : date) (notes : pyval) (now : Z) : M LearningSession :=
fun w =>
  match module_id with
  | VInt mid =>
      let insert (n : option string) :=
        if f_is_nan duration then (w, Raise IntegrityError)
        else
          let s := {| ses_id := next_id (map ses_id (learning_sessions w));
                      ses_module_id := mid;
                      ses_duration := duration;
                      ses_date := d;
                      ses_notes := n;
                      ses_created_at := now |} in
          (set_sessions (learning_sessions w ++ [s]) w, Ok s) in
      match notes with
      | VStr n => insert (Some n)
      | VNone => insert None
      | _ => (w, OutOfModel)
      end
  | VNone => (w, Raise IntegrityError)
  | _ => (w, OutOfModel)
  end.

Definition commit_new_recommendation (text : string) (now : Z)
  : M AIRecommendation :=
fun w =>
  let r := {| rec_id := next_id (map rec_id (ai_recommendations w));
              rec_text := text;
              rec_created_at := now |} in
  (set_recommendations (ai_recommendations w ++ [r]) w, Ok r).

(** [db.session.delete(module); db.session.commit()]: the relationship's
    [cascade='all, delete-orphan'] deletes the module's sessions with it. *)
Definition commit_delete_module (m : ModuleRow) : M unit :=
fun w =>
  (set_modules
     (filter (fun x => negb (mod_id x =? mod_id m)) (modules w))
     (set_sessions
        (filter (fun s => negb (ses_module_id s =? mod_id m))
                (learning_sessions w)) w),
   Ok tt).

Definition commit_delete_session (s : LearningSession) : M unit :=
fun w =>
  (set_sessions
     (filter (fun x => negb (ses_id x =? ses_id s)) (learning_sessions w)) w,
   Ok tt).

(** ** [app.py] *)

Definition validate_date (date_string : pyval) : option date :=
match date_string with
| VStr s => strptime_ymd s      (* ValueError becomes None *)
| _ => None                     (* TypeError becomes None *)
end.

Definition in_date_range (start_date end_date : date) (s : LearningSession)
  : bool :=
date_leb start_date (ses_date s) && date_leb (ses_date s) end_date.

Definition get_sessions_by_date_range (w : world) (start_date end_date : date)
  : list LearningSession :=
filter (in_date_range start_date end_date) (learning_sessions w).

Definition calculate_total_hours (sessions : list LearningSession) : pynum :=
py_round (py_sum (map ses_duration sessions)) 2.

Definition error_body (msg : string) : pyval := VDict [("error", VStr msg)].

Definition create_module (now : Z) (data : pyval) : M response :=
try_except
  (missing <-
     (if negb (truthy data) then ret true
      else
        has_name <- lift (py_in "name" data) ;;
        if negb has_name then ret true
        else
          has_target <- lift (py_in "target_hours" data) ;;
          ret (negb has_target)) ;;
   if missing
   then ret (respond (error_body "Name und target_hours sind erforderlich") 400)
   else
     target <- lift (py_getitem data "target_hours") ;;
     negative <- lift (py_lt0 target) ;;
     if negative
     then ret (respond (error_body "target_hours darf nicht negativ sein") 400)
     else
       has_exam <- lift (py_in "exam_date" data) ;;
       exam_given <-
         (if has_exam
          then v <- lift (py_getitem data "exam_date") ;; ret (truthy v)
          else ret false) ;;
       let persist (exam_date : option date) : M response :=
         name <- lift (py_getitem data "name") ;;
         t <- lift (py_getitem data "target_hours") ;;
         target_hours <- lift (py_float t) ;;
         module <- commit_new_module name target_hours exam_date now ;;
         w <- read ;;
         d <- lift (Module_to_dict w module false) ;;
         ret (respond d 201) in
       if exam_given
       then
         v <- lift (py_getitem data "exam_date") ;;
         match validate_date v with
         | None =>
             ret (respond
                    (error_body "Ungültiges Datumsformat. Nutze YYYY-MM-DD") 400)
         | Some exam_date => persist (Some exam_date)
         end
       else persist None)
  error_500.

Definition get_modules : M response :=
try_except
  (w <- read ;;
   ds <- lift (modules_to_dicts w (modules w)) ;;
   ret (respond (VList ds) 200))
  error_500.

Definition get_module (module_id : Z) : M response :=
try_except
  (module <- Module_get_or_404 module_id ;;
   w <- read ;;
   d <- lift (Module_to_dict w module true) ;;
   ret (respond d 200))
  error_500.

Definition delete_module (module_id : Z) : M response :=
try_except
  (module <- Module_get_or_404 module_id ;;
   let module_name := mod_name module in
   _ <- commit_delete_module module ;;
   ret (respond
          (VDict [("message",
                   VStr ("Modul " ++ dquote ++ module_name ++ dquote ++
                         " erfolgreich gelöscht"))]) 200))
  error_500.

(** The loop over [required_fields]: the first field that is not in
    [data], if any. *)
Fixpoint first_missing (fields : list string) (data : pyval)
  : result (option string) :=
match fields with
| [] => Ok None
| field :: rest =>
    present <~ py_in field data ;;
    if negb present then Ok (Some field) else first_missing rest data
end.

Definition create_session (now : Z) (data : pyval) : M response :=
try_except
  (let required_fields := ["module_id"; "duration"; "date"] in
   missing <- lift (first_missing required_fields data) ;;
   match missing with
   | Some field =>
       ret (respond (error_body (field ++ " ist erforderlich")) 400)
   | None =>
       duration <- lift (py_getitem data "duration") ;;
       nonpositive <- lift (py_le0 duration) ;;
       if nonpositive
       then ret (respond (error_body "duration muss größer als 0 sein") 400)
       else
         module_id <- lift (py_getitem data "module_id") ;;
         module <- Module_query_get module_id ;;
         match module with
         | None => ret (respond (error_body "Modul nicht gefunden") 404)
         | Some _ =>
             date_v <- lift (py_getitem data "date") ;;
             match validate_date date_v with
             | None =>
                 ret (respond
                        (error_body
                           "Ungültiges Datumsformat. Nutze YYYY-MM-DD") 400)
             | Some session_date =>
                 mid <- lift (py_getitem data "module_id") ;;
                 dv <- lift (py_getitem data "duration") ;;
                 dur <- lift (py_float dv) ;;
                 notes <- lift (py_get data "notes" (VStr "")) ;;
                 session <- commit_new_session mid dur session_date notes now ;;
                 w <- read ;;
                 ret (respond (LearningSession_to_dict w session) 201)
             end
         end
   end)
  error_500.

(** [query.limit(n).all()]: the limit is bound as an integer of the
    store; the rows are the first [n], and all of them for a negative
    limit, which the store reads as no limit. *)
Definition sql_limit {A : Type} (n : Z) (rows : list A) : result (list A) :=
k <~ bind_int n ;;
Ok (if k <? 0 then rows else firstn (Z.to_nat k) rows).

(** [limit] is [request.args.get('limit', type=int)]: [None] when the
    parameter is absent or is not an int. *)
Definition get_sessions (limit : option Z) : M response :=
try_except
  (w <- read ;;
   let query := order_by_desc date_ltb ses_date (learning_sessions w) in
   sessions <-
     lift (match limit with
           | Some n => if negb (n =? 0) then sql_limit n query else Ok query
           | None => Ok query
           end) ;;
   ret (respond (VList (map (LearningSession_to_dict w) sessions)) 200))
  error_500.

Definition delete_session (session_id : Z) : M response :=
try_except
  (session <- LearningSession_get_or_404 session_id ;;
   _ <- commit_delete_session session ;;
   ret (respond (VDict [("message", VStr "Session erfolgreich gelöscht")]) 200))
  error_500.

(** The configuration [create_app] reads from the environment. *)
Record config : Type := {
  GEMINI_API_KEY : string;
  GEMINI_MODEL : string;
  GEMINI_TEMPERATURE : float;
  GEMINI_MAX_TOKENS : Z
}.

(** The fixed instruction block that ends every prompt. *)
Definition PROMPT_INSTRUCTIONS : string := "
        Du bist ein intelligenter Lernplan-Generator.
        Erstelle auf Basis der folgenden Eingaben einen detaillierten, realistischen Lernplan für die nächsten 2 Wochen.

        **Ziel:**
        Erstelle einen Lernplan, der die Vorbereitung optimal auf die kommenden Prüfungen verteilt.
        Gib für jeden Tag folgendes an:
        - Datum
        - zu lernende Module
        - empfohlene Lernzeit in Stunden pro Modul
        - ggf. kurze Lernziele oder Schwerpunkt-Themen

        **Anforderungen an die Ausgabe:**
        - Zeitraum: die nächsten 14 Tage (beginnend ab heute oder ab angegebenem Startdatum)
        - Ausgabe im klaren, tabellarischen oder Listenformat
        - Achte auf eine realistische Verteilung der Lernzeit (keine 10 Stunden am Stück)
        - Berücksichtige Ruhetage oder kürzere Lerneinheiten an Wochenenden

        **Format der Antwort:**
        Tag (Datum):
        - Modul: X Stunden – Thema/Fokus: ...
        ".

Definition PROMPT_HEADER : string :=
  "Ich lerne für folgende Module:" ++ newline ++ newline.

(** [max(0, x)] for a float [x]: the int 0 unless [x > 0]. *)
Definition max0 (x : float) : pynum :=
if f_ltb f_zero x then PFloat x else PInt 0.

Definition remaining_hours (w : world) (m : ModuleRow) : result pynum :=
a <~ num_to_float (get_actual_hours w m) ;;
Ok (max0 (f_sub (mod_target_hours m) a)).

(** The two f-strings one module adds to the prompt. *)
Definition prompt_line (w : world) (m : ModuleRow) : result string :=
let actual_hours := get_actual_hours w m in
remaining <~ remaining_hours w m ;;
let exam_info :=
  match mod_exam_date m with
  | Some d => " (Prüfung am " ++ strftime_dmy d ++ ")"
  | None => ""
  end in
Ok ("- " ++ mod_name m ++ ": Ziel " ++ f_str (mod_target_hours m) ++
    "h, bereits gelernt " ++ num_str actual_hours ++ "h, " ++
    "noch " ++ num_str remaining ++ "h offen" ++ exam_info ++ newline).

(** The loop [for module in modules: prompt += ...]. *)
Fixpoint add_module_lines (w : world) (ms : list ModuleRow) (prompt : string)
  : result string :=
match ms with
| [] => Ok prompt
| m :: rest =>
    line <~ prompt_line w m ;;
    add_module_lines w rest (prompt ++ line)
end.

Definition build_prompt (w : world) (ms : list ModuleRow) : result string :=
prompt <~ add_module_lines w ms PROMPT_HEADER ;;
Ok (prompt ++ PROMPT_INSTRUCTIONS).

(** [model.generate_content(prompt, generation_config=...)] followed by
    reading [response.text]. The call is logged whatever comes back;
    [service] is what comes back: an exception of the client, no response
    object, or the text. *)
Definition generate_content (service : gemini_call -> result (option string))
  (call : gemini_call) : M (option string) :=
fun w =>
  (set_calls (gemini_calls w ++ [call]) w, service call).

Definition create_recommendation (cfg : config)
  (service : gemini_call -> result (option string)) (now : Z) : M response :=
try_except
  (if (String.length (GEMINI_API_KEY cfg) =? 0)%nat
      || String.eqb (GEMINI_API_KEY cfg) "your-api-key-here"
   then
     ret (respond
            (VDict [("error", VStr "Gemini API nicht konfiguriert");
                    ("message",
                     VStr "Bitte GEMINI_API_KEY Umgebungsvariable setzen")])
            503)
   else
     w <- read ;;
     let ms := modules w in
     match ms with
     | [] =>
         ret (respond
                (VDict [("error", VStr "Keine Module vorhanden");
                        ("message",
                         VStr ("Bitte erstelle zuerst Module, bevor du " ++
                               "eine Empfehlung anforderst"))])
                400)
     | _ =>
         prompt <- lift (build_prompt w ms) ;;
         text <- generate_content service
                   {| call_model := GEMINI_MODEL cfg;
                      call_prompt := prompt;
                      call_temperature := GEMINI_TEMPERATURE cfg;
                      call_max_tokens := GEMINI_MAX_TOKENS cfg |} ;;
         match text with
         | Some t =>
             if (String.length t =? 0)%nat
             then raise (PyException "Keine Antwort von Gemini API erhalten")
             else
               recommendation <- commit_new_recommendation t now ;;
               ret (respond (AIRecommendation_to_dict recommendation) 201)
         | None => raise (PyException "Keine Antwort von Gemini API erhalten")
         end
     end)
  (fun e =>
     respond (VDict [("error", VStr "Fehler bei der KI-Generierung");
                     ("message", VStr (str_exn e))]) 500).

(** [AIRecommendation.query.order_by(created_at.desc()).first()] *)
Definition latest_recommendation (w : world) : option AIRecommendation :=
hd_error (order_by_desc Z.ltb rec_created_at (ai_recommendations w)).

Definition get_recommendation : M response :=
try_except
  (w <- read ;;
   match latest_recommendation w with
   | None =>
       ret (respond
              (VDict [("message", VStr "Noch keine Empfehlung vorhanden")]) 404)
   | Some r => ret (respond (AIRecommendation_to_dict r) 200)
   end)
  error_500.

Definition opt_date (o : option date) (e : exn) : result date :=
match o with Some d => Ok d | None => Raise e end.

Definition len {A : Type} (l : list A) : pyval := VInt (Z.of_nat (List.length l)).

(** [today] is [date.today()]. *)
Definition get_dashboard (today : date) : M response :=
try_except
  (week_start <- lift (opt_date (sub_days today (weekday today)) OverflowError) ;;
   month_start <- lift (opt_date (replace_day today 1) ValueError) ;;
   w <- read ;;
   let today_sessions := get_sessions_by_date_range w today today in
   let week_sessions := get_sessions_by_date_range w week_start today in
   let month_sessions := get_sessions_by_date_range w month_start today in
   let hours_today := calculate_total_hours today_sessions in
   let hours_week := calculate_total_hours week_sessions in
   let hours_month := calculate_total_hours month_sessions in
   let ms := modules w in
   let last_recommendation := latest_recommendation w in
   ds <- lift (modules_to_dicts w ms) ;;
   let dashboard_data := VDict [
     ("statistics", VDict [
        ("hours_today", num_val hours_today);
        ("hours_week", num_val hours_week);
        ("hours_month", num_val hours_month);
        ("sessions_today", len today_sessions);
        ("sessions_week", len week_sessions);
        ("total_modules", len ms)
     ]);
     ("modules", VList ds);
     ("last_recommendation",
        match last_recommendation with
        | Some r => AIRecommendation_to_dict r
        | None => VNone
        end)
   ] in
   ret (respond dashboard_data 200))
  error_500.

(** ** The two creating views from their first statement

    [data = request.get_json()] opens the [try] block of both views. It
    returns the parsed body, [None] for the body [null], or it raises:
    werkzeug's BadRequest for a body that does not parse as JSON, as an
    empty one does not. [create_module now data] and
    [create_session now data] above are the views once it has returned
    [data]; they answer their own exceptions, so the [try] written here
    adds the one case in which [get_json] itself raises. *)
Definition create_module_view (now : Z) (get_json : result pyval)
  : M response :=
try_except (data <- lift get_json ;; create_module now data) error_500.

Definition create_session_view (now : Z) (get_json : result pyval)
  : M response :=
try_except (data <- lift get_json ;; create_session now data) error_500.

End Tracker.



(* ================================================================== *)
(** * The service as a transition system *)
(* ================================================================== *)

Section Service.

Context {RT : PyRuntime}.

(** One request of the API, with what the environment supplies to its
    handler: the clock, the parsed body, the configuration and the answer
    of the external service. *)
Inductive request : Type :=
| POST_modules (now : Z) (data : pyval)
| GET_modules
| GET_module (module_id : Z)
| DELETE_module (module_id : Z)
| POST_sessions (now : Z) (data : pyval)
| GET_sessions (limit : option Z)
| DELETE_session (session_id : Z)
| POST_recommend (cfg : config)
    (service : gemini_call -> result (option string)) (now : Z)
| GET_recommend
| GET_dashboard (today : date).

Definition serve (r : request) : M response :=
  match r with
  | POST_modules now data => create_module now data
  | GET_modules => get_modules
  | GET_module i => get_module i
  | DELETE_module i => delete_module i
  | POST_sessions now data => create_session now data
  | GET_sessions limit => get_sessions limit
  | DELETE_session i => delete_session i
  | POST_recommend cfg service now => create_recommendation cfg service now
  | GET_recommend => get_recommendation
  | GET_dashboard today => get_dashboard today
  end.

(** The states the service reaches from the empty store. *)
Inductive reachable : world -> Prop :=
| reachable_empty : reachable empty_world
| reachable_serve (w : world) (r : request) :
    reachable w -> reachable (fst (serve r w)).

(** The status of a handler's reply. *)
Definition status_of (o : world * result response) : option Z :=
  match snd o with
  | Ok r => Some (status r)
  | _ => None
  end.

(** A field of the JSON object a handler answers with. *)
Definition reply_field (o : world * result response) (k : string)
  : option pyval :=
  match snd o with
  | Ok r => match body r with VDict kv => dict_get kv k | _ => None end
  | _ => None
  end.

(** An entry of the dashboard's [statistics] object. *)
Definition statistic (o : world * result response) (k : string)
  : option pyval :=
  match reply_field o "statistics" with
  | Some (VDict kv) => dict_get kv k
  | _ => None
  end.

(** What one request can do to the store. *)
Inductive effect (w : world) : world -> Prop :=
| effect_none (w' : world) :
    modules w' = modules w ->
    learning_sessions w' = learning_sessions w ->
    effect w w'
| effect_new_module (m : ModuleRow) :
    mod_id m = next_id (map mod_id (modules w)) ->
    effect w (set_modules (modules w ++ [m]) w)
| effect_new_session (s : LearningSession) :
    ses_id s = next_id (map ses_id (learning_sessions w)) ->
    find_module w (ses_module_id s) <> None ->
    effect w (set_sessions (learning_sessions w ++ [s]) w)
| effect_delete_module (i : Z) :
    effect w
      (set_modules (filter (fun x => negb (mod_id x =? i)) (modules w))
         (set_sessions
            (filter (fun s => negb (ses_module_id s =? i))
                    (learning_sessions w)) w))
| effect_delete_session (i : Z) :
    effect w
      (set_sessions (filter (fun x => negb (ses_id x =? i))
                            (learning_sessions w)) w).

(** The store once module [i] and its sessions are gone. *)
Definition without_module (i : Z) (w : world) : world :=
  set_modules (filter (fun x => negb (mod_id x =? i)) (modules w))
    (set_sessions
       (filter (fun s => negb (ses_module_id s =? i)) (learning_sessions w))
       w).

(** Every session's [module_id] is the id of a stored module. *)
Definition sessions_reference_modules (w : world) : Prop :=
  forall s, In s (learning_sessions w) ->
  exists m, In m (modules w) /\ mod_id m = ses_module_id s.

(** A primary key identifies one row of its table. *)
Definition keys_unique (w : world) : Prop :=
  NoDup (map mod_id (modules w)) /\ NoDup (map ses_id (learning_sessions w)).

Definition invariant (w : world) : Prop :=
  sessions_reference_modules w /\ keys_unique w.

(** The statuses found in the [return] statements of each handler that
    it can reach. *)
Definition statuses (r : request) : list Z :=
  match r with
  | POST_modules _ _ => [201; 400; 500]
  | GET_modules => [200]
  | GET_module _ => [200; 500]
  | DELETE_module _ => [200; 500]
  | POST_sessions _ _ => [201; 400; 404; 500]
  | GET_sessions _ => [200; 500]
  | DELETE_session _ => [200; 500]
  | POST_recommend _ _ _ => [201; 400; 500; 503]
  | GET_recommend => [200; 404]
  | GET_dashboard _ => [200; 500]
  end.

End Service.

(* ================================================================== *)
(** * The vocabulary of the specification *)
(* ================================================================== *)

Section Specification.

Context {RT : PyRuntime}.

(** Section 4.3: the sessions whose date lies in the window from [lo] to
    [hi], both ends included. *)
Definition spec_window (w : world) (lo hi : date) : list LearningSession :=
  filter (fun s => date_leb lo (ses_date s) && date_leb (ses_date s) hi)
         (learning_sessions w).

Definition spec_hours (w : world) (lo hi : date) : pynum :=
  py_round (py_sum (map ses_duration (spec_window w lo hi))) 2.

Definition spec_count (w : world) (lo hi : date) : Z :=
  Z.of_nat (List.length (spec_window w lo hi)).

(** Section 4.2: a session stands before another in the list when its
    date is not earlier. *)
Definition newest_first (a b : LearningSession) : Prop :=
  date_leb (ses_date b) (ses_date a) = true.

(** [monday] is the Monday of the week [today] lies in. *)
Definition monday_of_week (today monday : date) : Prop :=
  valid_date monday /\
  weekday monday = 0 /\
  toordinal monday <= toordinal today <= toordinal monday + 6.

(** [first] is the first day of the month [today] lies in. *)
Definition first_of_month (today first : date) : Prop :=
  valid_date first /\
  year first = year today /\ month first = month today /\ day first = 1.

(** [o] is the most recently created recommendation, or nothing when the
    table is empty. *)
Definition most_recent (w : world) (o : option AIRecommendation) : Prop :=
  match o with
  | None => ai_recommendations w = []
  | Some r =>
      In r (ai_recommendations w) /\
      forall r', In r' (ai_recommendations w) ->
                 rec_created_at r' <= rec_created_at r
  end.

(** Section 3: the derived fields of a module. *)
Definition as_float (n : pynum) : float :=
  match n with PInt z => f_of_Z z | PFloat x => x end.

Definition spec_actual_hours (w : world) (m : ModuleRow) : pynum :=
  py_round
    (py_sum (map ses_duration
               (filter (fun s => ses_module_id s =? mod_id m)
                       (learning_sessions w)))) 2.

Definition spec_progress (target : float) (actual : pynum) : pynum :=
  if f_eqb target f_zero then PInt 0
  else PFloat (f_round (f_mul (f_div (as_float actual) target) (f_of_Z 100)) 1).

(** Section 4.4: remaining_hours = max(0, target_hours - actual_hours). *)
Definition spec_remaining (target : float) (actual : pynum) : pynum :=
  let x := f_sub target (as_float actual) in
  if f_ltb f_zero x then PFloat x else PInt 0.

(** The line of the prompt that describes a module. *)
Definition spec_prompt_line (w : world) (m : ModuleRow) : string :=
  "- " ++ mod_name m ++ ": Ziel " ++ f_str (mod_target_hours m) ++
  "h, bereits gelernt " ++ num_str (spec_actual_hours w m) ++ "h, " ++
  "noch " ++
  num_str (spec_remaining (mod_target_hours m) (spec_actual_hours w m)) ++
  "h offen" ++
  match mod_exam_date m with
  | Some d => " (Prüfung am " ++ strftime_dmy d ++ ")"
  | None => ""
  end ++ newline.

Definition contains (s part : string) : Prop :=
  exists before after, s = before ++ part ++ after.

(** Section 4.2: the rejections of Session Create, in the order the
    operation checks them, with the status of each. *)
Definition stored_key (z : Z) : Prop := INT64_MIN <= z <= INT64_MAX.

Definition module_absent (w : world) (v : pyval) : Prop :=
  v = VNone \/ exists z, v = VInt z /\ stored_key z /\ find_module w z = None.

Definition module_present (w : world) (v : pyval) : Prop :=
  exists z m, v = VInt z /\ stored_key z /\ find_module w z = Some m.

Inductive session_rejection (w : world) (kv : list (string * pyval))
  : Z -> Prop :=
| reject_missing :
    dict_get kv "module_id" = None \/ dict_get kv "duration" = None \/
    dict_get kv "date" = None ->
    session_rejection w kv 400
| reject_duration (mid dur dt : pyval) :
    dict_get kv "module_id" = Some mid ->
    dict_get kv "duration" = Some dur ->
    dict_get kv "date" = Some dt ->
    py_le0 dur = Ok true ->
    session_rejection w kv 400
| reject_module (mid dur dt : pyval) :
    dict_get kv "module_id" = Some mid ->
    dict_get kv "duration" = Some dur ->
    dict_get kv "date" = Some dt ->
    py_le0 dur = Ok false ->
    module_absent w mid ->
    session_rejection w kv 404
| reject_date (mid dur dt : pyval) :
    dict_get kv "module_id" = Some mid ->
    dict_get kv "duration" = Some dur ->
    dict_get kv "date" = Some dt ->
    py_le0 dur = Ok false ->
    module_present w mid ->
    validate_date dt = None ->
    session_rejection w kv 400.

(** Section 4.1: the request fields of Module Create as the data model
    types them: [name] a text, [target_hours] a number a float can hold. *)
Definition number_value (v : pyval) (x : float) : Prop :=
  (exists b, py_lt0 v = Ok b) /\ py_float v = Ok x /\ f_is_nan x = false.

Definition typed_module_body (kv : list (string * pyval)) : Prop :=
  (forall v, dict_get kv "name" = Some v -> exists n, v = VStr n) /\
  (forall v, dict_get kv "target_hours" = Some v -> exists x, number_value v x).

(** The exam date a request asks for: a value that is absent or falsy
    asks for none. *)
Definition requested_exam_date (kv : list (string * pyval)) : option date :=
  match dict_get kv "exam_date" with
  | Some v => if truthy v then validate_date v else None
  | None => None
  end.

(** When Module Create answers 400, as section 4.1 words it: an
    [exam_date] that is present and does not parse is refused. *)
Definition module_rejection_as_stated (kv : list (string * pyval)) : Prop :=
  dict_get kv "name" = None \/ dict_get kv "target_hours" = None \/
  (exists t, dict_get kv "target_hours" = Some t /\ py_lt0 t = Ok true) \/
  (exists v, dict_get kv "exam_date" = Some v /\ validate_date v = None).

(** The same with the guard of the handler: only an [exam_date] that is
    present and truthy (not null, not the empty text) is parsed. *)
Definition module_rejection (kv : list (string * pyval)) : Prop :=
  dict_get kv "name" = None \/ dict_get kv "target_hours" = None \/
  (exists t, dict_get kv "target_hours" = Some t /\ py_lt0 t = Ok true) \/
  (exists v, dict_get kv "exam_date" = Some v /\ truthy v = true /\
             validate_date v = None).

End Specification.

(* ================================================================== *)
(** * A runtime to run the handlers on concrete requests *)
(* ================================================================== *)

(** Exact rational arithmetic stands in for binary floating point, and the
    parser reads ASCII digits only; the theorems below hold for every
    runtime, this one is used to evaluate the handlers on examples. *)
Module Demo.

Definition q_scale (n : Z) : Q :=
  if n <? 0 then 1 / inject_Z (10 ^ (- n)) else inject_Z (10 ^ n).

(** Rounding to [n] decimals, ties to the even neighbour. *)
Definition q_round (x : Q) (n : Z) : Q :=
  let s := Qred (x * q_scale n) in
  let lo := Qfloor s in
  let twice := Qred (2 * (s - inject_Z lo)) in
  let up :=
    if Qeq_bool twice 1 then Z.odd lo else negb (Qle_bool twice 1) in
  Qred (inject_Z (if up then lo + 1 else lo) / q_scale n).

Fixpoint frac_digits (fuel : nat) (num den : Z) : string :=
  match fuel with
  | O => ""
  | S k =>
      if num =? 0 then ""
      else str_of_Z (num * 10 / den) ++ frac_digits k (num * 10 mod den) den
  end.

Definition q_str (x : Q) : string :=
  let x := Qred x in
  let a := Z.abs (Qnum x) in
  let d := Z.pos (Qden x) in
  (if Qnum x <? 0 then "-" else "") ++ str_of_Z (a / d) ++ "." ++
  (if a mod d =? 0 then "0" else frac_digits 17 (a mod d) d).

Definition digit (c : ascii) : option Z :=
  let n := Z.of_nat (nat_of_ascii c) in
  if (48 <=? n) && (n <=? 57) then Some (n - 48) else None.

Fixpoint digits_val (acc : Z) (s : string) : option Z :=
  match s with
  | EmptyString => Some acc
  | String c rest =>
      match digit c with
      | Some d => digits_val (acc * 10 + d) rest
      | None => None
      end
  end.

Definition number (s : string) : option Z :=
  match s with EmptyString => None | _ => digits_val 0 s end.

Fixpoint split_at (sep : ascii) (s : string) : string * option string :=
  match s with
  | EmptyString => (EmptyString, None)
  | String c rest =>
      if Ascii.eqb c sep then (EmptyString, Some rest)
      else let (a, b) := split_at sep rest in (String c a, b)
  end.

Definition q_of_str (s : string) : option Q :=
  let (neg, body) :=
    match s with
    | String "-"%char rest => (true, rest)
    | _ => (false, s)
    end in
  let (ip, fp) := split_at "."%char body in
  match number ip with
  | None => None
  | Some i =>
      let frac :=
        match fp with
        | None => Some 0%Q
        | Some f =>
            match number f with
            | Some v =>
                Some (inject_Z v / inject_Z (10 ^ Z.of_nat (String.length f)))%Q
            | None => None
            end
        end in
      match frac with
      | Some f =>
          let v := Qred (inject_Z i + f) in
          Some (if neg then Qred (- v) else v)
      | None => None
      end
  end.

(** The month and day fields of the format: one or two digits, no
    leading zero alone, within 1..12 and 1..31. *)
Definition field (hi : Z) (s : string) : option Z :=
  match number s with
  | Some v =>
      if (String.length s <=? 2)%nat && (1 <=? v) && (v <=? hi)
      then Some v else None
  | None => None
  end.

Definition day_field (s : string) : option Z :=
  match s with
  | String " "%char (String c EmptyString) =>
      match digit c with
      | Some d => if 1 <=? d then Some d else None
      | None => None
      end
  | _ => field 31 s
  end.

Definition parse_ymd (s : string) : option date :=
  let (ys, r1) := split_at "-"%char s in
  match r1 with
  | None => None
  | Some r1 =>
      let (ms, r2) := split_at "-"%char r1 in
      match r2 with
      | None => None
      | Some ds =>
          if (String.length ys =? 4)%nat then
            match number ys, field 12 ms, day_field ds with
            | Some y, Some m, Some d =>
                let dt := mkDate y m d in
                if valid_dateb dt then Some dt else None
            | _, _, _ => None
            end
          else None
      end
  end.

Definition dmy (d : date) : string :=
  pad_num 2 (day d) ++ "." ++ pad_num 2 (month d) ++ "." ++ pad_num 4 (year d).

(** Timestamps are whole seconds since 1970-01-01T00:00:00. *)
Definition iso_seconds (t : Z) : string :=
  let d := fromordinal (719163 + t / 86400) in
  let r := t mod 86400 in
  date_isoformat d ++ "T" ++ pad_num 2 (r / 3600) ++ ":" ++
  pad_num 2 (r mod 3600 / 60) ++ ":" ++ pad_num 2 (r mod 60).

Definition exn_name (e : exn) : string :=
  match e with
  | TypeError => "TypeError"
  | KeyError => "KeyError"
  | ValueError => "ValueError"
  | AttributeError => "AttributeError"
  | ZeroDivisionError => "float division by zero"
  | OverflowError => "OverflowError"
  | NotFound => "404 Not Found"
  | BadRequest => "400 Bad Request"
  | IntegrityError => "IntegrityError"
  | UpstreamError msg => msg
  | PyException msg => msg
  end.

Definition runtime : PyRuntime := {|
  float := Q;
  f_of_Z := inject_Z;
  f_of_str := q_of_str;
  f_sub := fun x y => Qred (x - y);
  f_mul := fun x y => Qred (x * y);
  f_div := fun x y => Qred (x / y);
  f_eqb := Qeq_bool;
  f_ltb := fun x y => negb (Qle_bool y x);
  f_leb := Qle_bool;
  f_is_nan := fun _ => false;
  f_sum := fun xs => Qred (fold_left Qplus xs 0%Q);
  f_round := q_round;
  f_str := q_str;
  strptime_ymd := parse_ymd;
  strftime_dmy := dmy;
  dt_isoformat := iso_seconds;
  exn_text := exn_name
|}.

#[local] Existing Instance runtime.

(** A small history: one module, a session of 3.5 hours on Monday
    2023-11-13 and one of 2 hours on Thursday 2023-11-16. *)
Definition today : date := mkDate 2023 11 16.

Definition mathe : pyval :=
  VDict [("name", VStr "Mathe"); ("target_hours", VInt 10);
         ("exam_date", VStr "2024-02-29")].

Definition monday_session : pyval :=
  VDict [("module_id", VInt 1); ("duration", VFloat (7 # 2)%Q);
         ("date", VStr "2023-11-13"); ("notes", VStr "Analysis")].

Definition thursday_session : pyval :=
  VDict [("module_id", VInt 1); ("duration", VFloat 2%Q);
         ("date", VStr "2023-11-16")].

Definition world1 : world := fst (create_module 1699860000 mathe empty_world).
Definition world2 : world := fst (create_session 1699900000 monday_session world1).
Definition world3 : world :=
  fst (create_session 1700150000 thursday_session world2).

Definition configured : config :=
  {| GEMINI_API_KEY := "secret";
     GEMINI_MODEL := "gemini-2.0-flash-exp";
     GEMINI_TEMPERATURE := (7 # 10)%Q;
     GEMINI_MAX_TOKENS := 2048 |}.

Definition unconfigured : config :=
  {| GEMINI_API_KEY := "";
     GEMINI_MODEL := "gemini-2.0-flash-exp";
     GEMINI_TEMPERATURE := (7 # 10)%Q;
     GEMINI_MAX_TOKENS := 2048 |}.

Definition service (c : gemini_call) : result (option string) :=
  Ok (Some "Tag 1: Mathe, 2 Stunden").

(** A request whose [exam_date] is the empty text. *)
Definition no_exam_date : list (string * pyval) :=
  [("name", VStr "Physik"); ("target_hours", VInt 40); ("exam_date", VStr "")].

(** A request for a session in a module that does not exist, on a date
    that does not parse. *)
Definition unknown_module : list (string * pyval) :=
  [("module_id", VInt 99); ("duration", VInt 1); ("date", VStr "morgen")].

(** A request for a session of no duration. *)
Definition zero_duration : list (string * pyval) :=
  [("module_id", VInt 1); ("duration", VInt 0); ("date", VStr "2023-11-16")].

End Demo.

(* ================================================================== *)
(** * Facts about the calendar *)
(* ================================================================== *)

Ltac divmod := Z.div_mod_to_equations.

(** Evaluates the table look-ups and flags whose arguments are closed. *)
Ltac eval_tables :=
  repeat match goal with
    | |- context [tbl ?t ?i] =>
        let v := eval vm_compute in (tbl t i) in change (tbl t i) with v
    | |- context [b2z ?b] =>
        let v := eval vm_compute in (b2z b) in change (b2z b) with v
    end.

Lemma month_of_yday (leap : bool) (r m : Z) :
  0 <= r < 365 + b2z leap ->
  m = Z.shiftr (r + 50) 5 ->
  let md := yday_split leap r m in
  1 <= fst md <= 12 /\
  1 <= snd md <= tbl DAYS_IN_MONTH (fst md) + b2z ((fst md =? 2) && leap) /\
  tbl DAYS_BEFORE_MONTH (fst md) + b2z ((2 <? fst md) && leap) + snd md = r + 1.
Proof.
  intros Hr Em. cbv zeta.
  rewrite Z.shiftr_div_pow2 in Em by lia. change (2 ^ 5) with 32 in Em.
  assert (Hm : 1 <= m <= 12) by (destruct leap; simpl in Hr; divmod; lia).
  assert (Hcases : m = 1 \/ m = 2 \/ m = 3 \/ m = 4 \/ m = 5 \/ m = 6 \/ m = 7 \/
                   m = 8 \/ m = 9 \/ m = 10 \/ m = 11 \/ m = 12) by lia.
  clear Hm. unfold yday_split.
  destruct leap; simpl in Hr;
  repeat (destruct Hcases as [Hc | Hcases]); try rename Hcases into Hc;
    rewrite Hc in Em |- *; clear Hc;
    match goal with
    | |- context [r <? ?b] =>
        destruct (Z.ltb_spec r b) as [Hlt|Hlt]; revert Hlt
    end;
    cbn [fst snd]; eval_tables; intros Hlt; divmod; lia.
Qed.

(** [toordinal] undoes [fromordinal] on every day from 0001-01-01 on. *)
Lemma toordinal_fromordinal (n : Z) :
  1 <= n -> toordinal (fromordinal n) = n.
Proof.
  intros Hn. unfold fromordinal, ord2ymd, toordinal.
  cbv zeta.
  unfold DI400Y, DI100Y, DI4Y.
  set (n0 := n - 1).
  set (n400 := n0 / 146097). set (r1 := n0 mod 146097).
  set (n100 := r1 / 36524). set (r2 := r1 mod 36524).
  set (n4 := r2 / 1461). set (r3 := r2 mod 1461).
  set (n1 := r3 / 365). set (r4 := r3 mod 365).
  assert (H0 : 0 <= n0) by (unfold n0; lia).
  assert (E1 : n0 = 146097 * n400 + r1 /\ 0 <= r1 < 146097)
    by (unfold n400, r1; divmod; lia).
  assert (E2 : r1 = 36524 * n100 + r2 /\ 0 <= r2 < 36524)
    by (unfold n100, r2; divmod; lia).
  assert (E3 : r2 = 1461 * n4 + r3 /\ 0 <= r3 < 1461)
    by (unfold n4, r3; divmod; lia).
  assert (E4 : r3 = 365 * n1 + r4 /\ 0 <= r4 < 365)
    by (unfold n1, r4; divmod; lia).
  assert (B400 : 0 <= n400) by lia.
  assert (B100 : 0 <= n100 <= 4) by lia.
  assert (B4 : 0 <= n4 <= 24) by lia.
  assert (B1 : 0 <= n1 <= 4) by lia.
  clearbody n400 r1 n100 r2 n4 r3 n1 r4.
  destruct ((n1 =? 4) || (n100 =? 4)) eqn:Hlast.
  - (* the last day of a leap year or of a 400-year cycle *)
    cbn [year month day].
    unfold ymd2ord, days_before_year, days_before_month, is_leap.
    change (tbl DAYS_BEFORE_MONTH 12) with 334. cbv zeta.
    apply orb_true_iff in Hlast.
    destruct Hlast as [H|H]; apply Z.eqb_eq in H; subst;
      repeat match goal with
        | |- context [?a =? ?b] => destruct (Z.eqb_spec a b)
        end;
      cbn [b2z andb orb negb Z.ltb Z.compare Pos.compare Pos.compare_cont];
      divmod; lia.
  - apply orb_false_iff in Hlast. destruct Hlast as [Hn1 Hn100].
    apply Z.eqb_neq in Hn1, Hn100.
    set (leap := (n1 =? 3) && (negb (n4 =? 24) || (n100 =? 3))).
    pose proof (month_of_yday leap r4 (Z.shiftr (r4 + 50) 5)) as HM.
    unfold yday_split in HM. cbv zeta in HM.
    assert (Hr4 : 0 <= r4 < 365 + b2z leap) by (destruct leap; simpl; lia).
    specialize (HM Hr4 eq_refl).
    set (m := Z.shiftr (r4 + 50) 5) in *. clearbody m.
    set (Y := n400 * 400 + 1 + n100 * 100 + n4 * 4 + n1).
    assert (HL : is_leap Y = leap).
    { unfold is_leap, leap, Y.
      repeat match goal with
        | |- context [?a =? ?b] => destruct (Z.eqb_spec a b)
        end;
      cbn [andb orb negb]; try reflexivity; exfalso; divmod; lia. }
    assert (HY : days_before_year Y = n0 - r4).
    { unfold days_before_year, Y. cbv zeta. divmod; lia. }
    destruct (r4 <? _) eqn:Hlt; cbn [fst snd] in HM; cbn [year month day];
      unfold ymd2ord, days_before_month; rewrite HL, HY; lia.
Qed.

Lemma days_before_year_nonneg (y : Z) : 1 <= y -> 0 <= days_before_year y.
Proof. intros H. unfold days_before_year. cbv zeta. divmod. lia. Qed.

Lemma valid_date_fields (d : date) :
  valid_date d ->
  1 <= year d <= 9999 /\ 1 <= month d <= 12 /\
  1 <= day d <= days_in_month (year d) (month d).
Proof.
  unfold valid_date, valid_dateb, MINYEAR, MAXYEAR. intros H.
  repeat (apply andb_prop in H; destruct H as [H ?]).
  repeat match goal with
    | H : (_ <=? _) = true |- _ => apply Z.leb_le in H
    end.
  lia.
Qed.

Lemma days_before_month_bounds (y m : Z) :
  1 <= m <= 12 ->
  0 <= days_before_month y m /\
  days_before_month y m + days_in_month y m <= 365 + b2z (is_leap y).
Proof.
  intros Hm. unfold days_before_month, days_in_month.
  assert (Hcases : m = 1 \/ m = 2 \/ m = 3 \/ m = 4 \/ m = 5 \/ m = 6 \/ m = 7 \/
                   m = 8 \/ m = 9 \/ m = 10 \/ m = 11 \/ m = 12) by lia.
  repeat (destruct Hcases as [Hc | Hcases]); try rename Hcases into Hc;
    subst m; destruct (is_leap y); vm_compute; split; discriminate.
Qed.

(** The ordinal of a valid date is a day from 0001-01-01 on. *)
Lemma toordinal_pos (d : date) : valid_date d -> 1 <= toordinal d.
Proof.
  intros Hv. apply valid_date_fields in Hv. destruct Hv as (Hy & Hm & Hd).
  unfold toordinal, ymd2ord.
  pose proof (days_before_year_nonneg (year d) (proj1 Hy)).
  pose proof (days_before_month_bounds (year d) (month d) Hm). lia.
Qed.

Lemma days_before_year_succ (y : Z) :
  days_before_year (y + 1) = days_before_year y + 365 + b2z (is_leap y).
Proof.
  unfold days_before_year, is_leap, b2z. cbv zeta.
  replace (y + 1 - 1) with y by lia.
  repeat match goal with
    | |- context [?a =? ?b] => destruct (Z.eqb_spec a b)
    end; cbn [andb orb negb]; divmod; lia.
Qed.

Lemma days_before_year_mono (y y' : Z) :
  y <= y' -> days_before_year y <= days_before_year y'.
Proof. intros H. unfold days_before_year. cbv zeta. divmod. lia. Qed.

Lemma toordinal_max (d : date) : valid_date d -> toordinal d <= MAXORDINAL.
Proof.
  intros Hv. apply valid_date_fields in Hv. destruct Hv as (Hy & Hm & Hd).
  unfold toordinal, ymd2ord.
  pose proof (days_before_month_bounds (year d) (month d) Hm) as [_ Hb].
  pose proof (days_before_year_succ (year d)) as Hs.
  pose proof (days_before_year_mono (year d + 1) 10000 ltac:(lia)) as Hmono.
  change (days_before_year 10000) with 3652059 in Hmono.
  unfold MAXORDINAL. lia.
Qed.

(** Every ordinal of the supported range is the ordinal of a valid
    date. *)
Lemma fromordinal_valid (n : Z) :
  1 <= n <= MAXORDINAL -> valid_date (fromordinal n).
Proof.
  intros Hn. unfold fromordinal, ord2ymd, MAXORDINAL in *.
  cbv zeta.
  unfold DI400Y, DI100Y, DI4Y.
  set (n0 := n - 1).
  set (n400 := n0 / 146097). set (r1 := n0 mod 146097).
  set (n100 := r1 / 36524). set (r2 := r1 mod 36524).
  set (n4 := r2 / 1461). set (r3 := r2 mod 1461).
  set (n1 := r3 / 365). set (r4 := r3 mod 365).
  assert (H0 : 0 <= n0 <= 3652058) by (unfold n0; lia).
  assert (E1 : n0 = 146097 * n400 + r1 /\ 0 <= r1 < 146097)
    by (unfold n400, r1; divmod; lia).
  assert (E2 : r1 = 36524 * n100 + r2 /\ 0 <= r2 < 36524)
    by (unfold n100, r2; divmod; lia).
  assert (E3 : r2 = 1461 * n4 + r3 /\ 0 <= r3 < 1461)
    by (unfold n4, r3; divmod; lia).
  assert (E4 : r3 = 365 * n1 + r4 /\ 0 <= r4 < 365)
    by (unfold n1, r4; divmod; lia).
  assert (B400 : 0 <= n400 <= 24) by lia.
  assert (B100 : 0 <= n100 <= 4) by lia.
  assert (B4 : 0 <= n4 <= 24) by lia.
  assert (B1 : 0 <= n1 <= 4) by lia.
  clearbody n400 r1 n100 r2 n4 r3 n1 r4.
  unfold valid_date, valid_dateb, MINYEAR, MAXYEAR.
  destruct ((n1 =? 4) || (n100 =? 4)) eqn:Hlast.
  - cbn [year month day].
    apply orb_true_iff in Hlast.
    assert (Hd : days_in_month
                   (n400 * 400 + 1 + n100 * 100 + n4 * 4 + n1 - 1) 12 = 31)
      by reflexivity.
    rewrite Hd.
    repeat (apply andb_true_iff; split); apply Z.leb_le;
      destruct Hlast as [H|H]; apply Z.eqb_eq in H; lia.
  - apply orb_false_iff in Hlast. destruct Hlast as [Hn1 Hn100].
    apply Z.eqb_neq in Hn1, Hn100.
    set (leap := (n1 =? 3) && (negb (n4 =? 24) || (n100 =? 3))).
    pose proof (month_of_yday leap r4 (Z.shiftr (r4 + 50) 5)) as HM.
    unfold yday_split in HM. cbv zeta in HM.
    assert (Hr4 : 0 <= r4 < 365 + b2z leap) by (destruct leap; simpl; lia).
    specialize (HM Hr4 eq_refl).
    set (m := Z.shiftr (r4 + 50) 5) in *. clearbody m.
    set (Y := n400 * 400 + 1 + n100 * 100 + n4 * 4 + n1).
    assert (HL : is_leap Y = leap).
    { unfold is_leap, leap, Y.
      repeat match goal with
        | |- context [?a =? ?b] => destruct (Z.eqb_spec a b)
        end;
      cbn [andb orb negb]; try reflexivity; exfalso; divmod; lia. }
    assert (HYr : 1 <= Y <= 9999) by (unfold Y; lia).
    assert (Hdim : forall mm, 1 <= mm <= 12 ->
              days_in_month Y mm =
              tbl DAYS_IN_MONTH mm + b2z ((mm =? 2) && leap)).
    { intros mm Hmm. unfold days_in_month. rewrite HL.
      destruct (Z.eqb_spec mm 2) as [->|]; destruct leap; cbn [andb b2z];
        try reflexivity; lia. }
    destruct (r4 <? _) eqn:Hlt; cbn [fst snd] in HM; cbn [year month day];
      rewrite Hdim by lia;
      repeat (apply andb_true_iff; split); apply Z.leb_le; lia.
Qed.

(** The Monday the dashboard starts the week at. *)
Lemma week_start_is_monday (today : date) :
  valid_date today ->
  exists monday,
    sub_days today (weekday today) = Some monday /\
    monday_of_week today monday.
Proof.
  intros Hv.
  pose proof (toordinal_pos today Hv) as Hlo.
  pose proof (toordinal_max today Hv) as Hhi.
  unfold sub_days, weekday. cbv zeta.
  set (o := toordinal today) in *.
  assert (Hk : 1 <= o - (o + 6) mod 7 <= MAXORDINAL) by (divmod; lia).
  replace ((0 <? o - (o + 6) mod 7) && (o - (o + 6) mod 7 <=? MAXORDINAL))
    with true
    by (symmetry; apply andb_true_iff; split;
        [apply Z.ltb_lt | apply Z.leb_le]; lia).
  eexists. split; [reflexivity|].
  unfold monday_of_week, weekday.
  split; [now apply fromordinal_valid|].
  rewrite toordinal_fromordinal by lia.
  fold o. divmod. lia.
Qed.

Lemma month_start_is_first (today : date) :
  valid_date today ->
  exists first,
    replace_day today 1 = Some first /\ first_of_month today first.
Proof.
  intros Hv. pose proof (valid_date_fields today Hv) as (Hy & Hm & Hd).
  unfold replace_day. cbv zeta.
  assert (Hvalid : valid_dateb (mkDate (year today) (month today) 1) = true).
  { unfold valid_dateb, MINYEAR, MAXYEAR. cbn [year month day].
    repeat (apply andb_true_iff; split); apply Z.leb_le; lia. }
  rewrite Hvalid. eexists. split; [reflexivity|].
  unfold first_of_month. cbn [year month day]. auto.
Qed.

Ltac month_cases m H :=
  assert (H : m = 1 \/ m = 2 \/ m = 3 \/ m = 4 \/ m = 5 \/ m = 6 \/ m = 7 \/
              m = 8 \/ m = 9 \/ m = 10 \/ m = 11 \/ m = 12) by lia;
  repeat (destruct H as [H | H]).

Lemma days_before_month_step (y m m' : Z) :
  1 <= m -> m < m' -> m' <= 12 ->
  days_before_month y m + days_in_month y m <= days_before_month y m'.
Proof.
  intros H1 H2 H3. unfold days_before_month, days_in_month.
  month_cases m Hm; month_cases m' Hm'; subst; try lia;
    destruct (is_leap y); vm_compute; congruence.
Qed.

(** Dates are ordered as their ordinals are. *)
Lemma date_leb_toordinal (a b : date) :
  valid_date a -> valid_date b ->
  date_leb a b = (toordinal a <=? toordinal b).
Proof.
  intros Ha Hb.
  apply valid_date_fields in Ha, Hb.
  destruct Ha as (Hya & Hma & Hda), Hb as (Hyb & Hmb & Hdb).
  pose proof (days_before_month_bounds (year a) (month a) Hma) as [Ha0 Ha1].
  pose proof (days_before_month_bounds (year b) (month b) Hmb) as [Hb0 Hb1].
  pose proof (days_before_year_succ (year a)) as Hsa.
  pose proof (days_before_year_succ (year b)) as Hsb.
  unfold date_leb, toordinal, ymd2ord.
  destruct (Z.ltb_spec (year a) (year b)) as [Hy|Hy]; cbn [orb].
  - pose proof (days_before_year_mono (year a + 1) (year b) ltac:(lia)).
    symmetry. apply Z.leb_le. lia.
  - destruct (Z.eqb_spec (year a) (year b)) as [Ey|Ey]; cbn [andb].
    + rewrite Ey in *.
      destruct (Z.ltb_spec (month a) (month b)) as [Hm|Hm]; cbn [orb].
      * pose proof (days_before_month_step (year b) (month a) (month b)
                      ltac:(lia) Hm ltac:(lia)).
        symmetry. apply Z.leb_le. lia.
      * destruct (Z.eqb_spec (month a) (month b)) as [Em|Em]; cbn [andb].
        -- rewrite Em.
           destruct (Z.leb_spec (day a) (day b));
             symmetry; [apply Z.leb_le | apply Z.leb_gt]; lia.
        -- pose proof (days_before_month_step (year b) (month b) (month a)
                         ltac:(lia) ltac:(lia) ltac:(lia)).
           symmetry. apply Z.leb_gt. lia.
    + pose proof (days_before_year_mono (year b + 1) (year a) ltac:(lia)).
      symmetry. apply Z.leb_gt. lia.
Qed.

Lemma date_leb_iff (a b : date) :
  date_leb a b = true <->
  year a < year b \/
  (year a = year b /\
   (month a < month b \/ (month a = month b /\ day a <= day b))).
Proof.
  unfold date_leb.
  rewrite !orb_true_iff, !andb_true_iff, !orb_true_iff, !andb_true_iff.
  rewrite !Z.ltb_lt, !Z.eqb_eq, Z.leb_le. reflexivity.
Qed.

Lemma date_ltb_false (a b : date) :
  date_ltb a b = false <-> date_leb b a = true.
Proof. unfold date_ltb. destruct (date_leb b a); cbn; intuition congruence. Qed.

Lemma date_ltb_asym (a b : date) : date_ltb a b = true -> date_ltb b a = false.
Proof.
  intros H. apply date_ltb_false. apply date_leb_iff.
  unfold date_ltb in H. apply negb_true_iff in H.
  assert (Hn : ~ (date_leb b a = true)) by congruence.
  rewrite date_leb_iff in Hn. lia.
Qed.

Lemma date_geb_trans (a b c : date) :
  date_ltb a b = false -> date_ltb b c = false -> date_ltb a c = false.
Proof. rewrite !date_ltb_false, !date_leb_iff. lia. Qed.

Lemma date_leb_antisym (a b : date) :
  date_leb a b = true -> date_leb b a = true -> a = b.
Proof.
  rewrite !date_leb_iff. intros H1 H2.
  destruct a as [ya ma da], b as [yb mb db]. cbn [year month day] in *.
  f_equal; lia.
Qed.

Lemma date_leb_refl (a : date) : date_leb a a = true.
Proof. apply date_leb_iff. lia. Qed.

(** The window from a day to itself holds the sessions of that day. *)
Lemma one_day_window (today d : date) :
  date_leb today d && date_leb d today = date_eqb d today.
Proof.
  apply eq_true_iff_eq.
  rewrite andb_true_iff, !date_leb_iff. unfold date_eqb.
  rewrite !andb_true_iff, !Z.eqb_eq. lia.
Qed.

(** The window from the Monday of the week to today holds the days from
    [weekday today] days ago to today. *)
Lemma week_window_days (today monday d : date) :
  valid_date today -> valid_date d -> monday_of_week today monday ->
  date_leb monday d && date_leb d today = true <->
  toordinal today - weekday today <= toordinal d <= toordinal today.
Proof.
  intros Ht Hd (Hm & Hw & Hr).
  rewrite andb_true_iff, !date_leb_toordinal, !Z.leb_le by assumption.
  unfold weekday in *. divmod. lia.
Qed.

(* ================================================================== *)
(** * Ordering a query *)
(* ================================================================== *)

Section Ordering.

Variables (A K : Type) (ltb : K -> K -> bool) (key : A -> K).

Hypothesis ltb_asym : forall x y, ltb x y = true -> ltb y x = false.
Hypothesis geb_trans :
  forall x y z, ltb x y = false -> ltb y z = false -> ltb x z = false.

Lemma insert_desc_perm (x : A) (l : list A) :
  Permutation (insert_desc ltb key x l) (x :: l).
Proof.
  induction l as [|y ys IH]; cbn [insert_desc]; [reflexivity|].
  destruct (ltb (key x) (key y)); [|reflexivity].
  rewrite IH. apply perm_swap.
Qed.

Lemma order_by_desc_perm (l : list A) :
  Permutation (order_by_desc ltb key l) l.
Proof.
  induction l as [|x xs IH]; cbn [order_by_desc]; [reflexivity|].
  rewrite insert_desc_perm. now apply perm_skip.
Qed.

Lemma insert_desc_sorted (x : A) (l : list A) :
  StronglySorted (not_below ltb key) l ->
  StronglySorted (not_below ltb key) (insert_desc ltb key x l).
Proof.
  induction 1 as [|y ys Hs IH Hall]; cbn [insert_desc].
  - constructor; constructor.
  - destruct (ltb (key x) (key y)) eqn:Hxy.
    + constructor; [exact IH|].
      rewrite Forall_forall. intros z Hz.
      apply (Permutation_in _ (insert_desc_perm x ys)) in Hz.
      destruct Hz as [<-|Hz].
      * now apply ltb_asym.
      * rewrite Forall_forall in Hall. now apply Hall.
    + constructor; [now constructor|].
      constructor; [exact Hxy|].
      rewrite Forall_forall in Hall |- *. intros z Hz.
      apply (geb_trans _ (key y)); [exact Hxy | now apply Hall].
Qed.

Lemma order_by_desc_sorted (l : list A) :
  StronglySorted (not_below ltb key) (order_by_desc ltb key l).
Proof.
  induction l as [|x xs IH]; cbn [order_by_desc].
  - constructor.
  - now apply insert_desc_sorted.
Qed.

(** The first row of a descending order is a row of the table that no
    other row exceeds. *)
Lemma order_by_desc_first (l : list A) :
  match hd_error (order_by_desc ltb key l) with
  | None => l = []
  | Some a => In a l /\ forall b, In b l -> ltb (key a) (key b) = false
  end.
Proof.
  pose proof (order_by_desc_perm l) as Hp.
  pose proof (order_by_desc_sorted l) as Hs.
  destruct (order_by_desc ltb key l) as [|a rest]; cbn [hd_error].
  - now apply Permutation_nil.
  - split.
    + apply (Permutation_in _ Hp). now left.
    + intros b Hb. apply Permutation_sym in Hp.
      apply (Permutation_in _ Hp) in Hb. destruct Hb as [<-|Hb].
      * destruct (ltb (key a) (key a)) eqn:E; [|reflexivity].
        pose proof (ltb_asym _ _ E). congruence.
      * apply StronglySorted_inv in Hs. destruct Hs as [_ Hall].
        rewrite Forall_forall in Hall. now apply Hall.
Qed.

End Ordering.

Lemma Z_ltb_asym (x y : Z) : (x <? y) = true -> (y <? x) = false.
Proof. rewrite Z.ltb_lt, Z.ltb_ge. lia. Qed.

Lemma Z_geb_trans (x y z : Z) :
  (x <? y) = false -> (y <? z) = false -> (x <? z) = false.
Proof. rewrite !Z.ltb_ge. lia. Qed.

(* ================================================================== *)
(** * The derived fields of a module *)
(* ================================================================== *)

Section DerivedFields.

Context {RT : PyRuntime}.

Lemma int_to_float_small (z : Z) :
  Z.abs z < 2 ^ 53 -> int_to_float z = Ok (f_of_Z z).
Proof.
  intros H. unfold int_to_float.
  assert (Hlim : 2 ^ 53 <= FLOAT_LIMIT) by (vm_compute; congruence).
  destruct (Z.leb_spec FLOAT_LIMIT (Z.abs z)); [lia | reflexivity].
Qed.

Lemma num_to_float_sum (xs : list float) (n : Z) :
  num_to_float (py_round (py_sum xs) n) = Ok (as_float (py_round (py_sum xs) n)).
Proof.
  destruct xs; cbn [py_sum py_round num_to_float as_float]; [|reflexivity].
  apply int_to_float_small. vm_compute. reflexivity.
Qed.

Lemma get_actual_hours_spec (w : world) (m : ModuleRow) :
  get_actual_hours w m = spec_actual_hours w m.
Proof. reflexivity. Qed.

(** The percentage is computed without an exception, and is the one of
    section 3. *)
Lemma get_progress_percentage_spec (w : world) (m : ModuleRow) :
  get_progress_percentage w m =
  Ok (spec_progress (mod_target_hours m) (spec_actual_hours w m)).
Proof.
  unfold get_progress_percentage, spec_progress.
  rewrite get_actual_hours_spec.
  destruct (f_eqb (mod_target_hours m) f_zero) eqn:Hz; [reflexivity|].
  unfold spec_actual_hours. rewrite num_to_float_sum. cbn [rbind].
  unfold truediv. rewrite Hz. cbn [rbind].
  rewrite int_to_float_small by (vm_compute; reflexivity).
  reflexivity.
Qed.

Lemma Module_to_dict_spec (w : world) (m : ModuleRow) (inc : bool) :
  exists kv,
    Module_to_dict w m inc = Ok (VDict kv) /\
    dict_get kv "actual_hours" = Some (num_val (spec_actual_hours w m)) /\
    dict_get kv "progress_percentage" =
      Some (num_val (spec_progress (mod_target_hours m)
                                   (spec_actual_hours w m))).
Proof.
  unfold Module_to_dict. rewrite get_progress_percentage_spec.
  cbn [rbind]. rewrite get_actual_hours_spec.
  eexists. split; [reflexivity|].
  destruct inc; split; reflexivity.
Qed.

(** C3. The serialised module carries, as [actual_hours], the sum of its
    sessions' durations rounded to 2 decimals and, as [progress_percentage],
    that number divided by [target_hours], times 100, rounded to 1 decimal;
    when [target_hours] is 0 the percentage is 0 whatever has been studied.
    No exception (division by zero, overflow) interrupts the
    serialisation. *)
Theorem progress_percentage_serialized
  (w : world) (m : ModuleRow) (include_sessions : bool) :
  exists kv,
    Module_to_dict w m include_sessions = Ok (VDict kv) /\
    dict_get kv "actual_hours" = Some (num_val (spec_actual_hours w m)) /\
    dict_get kv "progress_percentage" =
      Some (num_val
              (if f_eqb (mod_target_hours m) f_zero then PInt 0
               else PFloat
                      (f_round
                         (f_mul
                            (f_div (as_float (spec_actual_hours w m))
                                   (mod_target_hours m))
                            (f_of_Z 100)) 1))).
Proof.
  unfold Module_to_dict. rewrite get_progress_percentage_spec.
  cbn [rbind]. rewrite get_actual_hours_spec. unfold spec_progress.
  eexists. split; [reflexivity|].
  destruct include_sessions; split; reflexivity.
Qed.

End DerivedFields.

(* ================================================================== *)
(** * Module management *)
(* ================================================================== *)

Section ModuleCreate.

Context {RT : PyRuntime}.

Lemma dict_get_truthy (kv : list (string * pyval)) (k : string) (v : pyval) :
  dict_get kv k = Some v -> truthy (VDict kv) = true.
Proof. destruct kv; [discriminate | reflexivity]. Qed.

Lemma create_module_missing (now : Z) (kv : list (string * pyval)) (w : world) :
  dict_get kv "name" = None \/ dict_get kv "target_hours" = None ->
  create_module now (VDict kv) w =
  (w, Ok (respond (error_body "Name und target_hours sind erforderlich") 400)).
Proof.
  intros H. unfold create_module, try_except, bind, lift, ret, read.
  destruct (truthy (VDict kv)); cbn [negb]; [|reflexivity].
  cbn [py_in].
  destruct (dict_get kv "name"); cbn [negb]; [|reflexivity].
  destruct (dict_get kv "target_hours"); cbn [negb]; [|reflexivity].
  destruct H; discriminate.
Qed.


End ModuleCreate.

(* ================================================================== *)
(** * Session management *)
(* ================================================================== *)

(** The integers the store binds. *)
Lemma bind_int_stored (z : Z) : stored_key z -> bind_int z = Ok z.
Proof.
  intros [Hlo Hhi]. unfold bind_int.
  apply Z.leb_le in Hlo, Hhi. now rewrite Hlo, Hhi.
Qed.

Lemma bind_int_beyond (z : Z) :
  ~ stored_key z -> bind_int z = Raise OverflowError.
Proof.
  intros Hn. unfold bind_int.
  destruct (Z.leb_spec INT64_MIN z), (Z.leb_spec z INT64_MAX);
    try reflexivity.
  exfalso. apply Hn. split; assumption.
Qed.

Lemma bind_int_ok (z k : Z) : bind_int z = Ok k -> k = z /\ stored_key z.
Proof.
  unfold bind_int.
  destruct (Z.leb_spec INT64_MIN z), (Z.leb_spec z INT64_MAX);
    cbn [andb]; intros E; try discriminate E.
  injection E as <-. split; [reflexivity | split; assumption].
Qed.

(** Replaces a key that has been bound by the key itself. *)
Ltac bound_key :=
  repeat match goal with
         | H : bind_int ?z = Ok ?k |- _ =>
             let E := fresh in
             let K := fresh in
             apply bind_int_ok in H; destruct H as [E K];
             first [subst k | rewrite E in *; clear E]
         end.

Section SessionCreate.

Context {RT : PyRuntime}.

Lemma first_missing_dict (kv : list (string * pyval)) :
  first_missing ["module_id"; "duration"; "date"] (VDict kv) =
  Ok (match dict_get kv "module_id", dict_get kv "duration",
            dict_get kv "date" with
      | None, _, _ => Some "module_id"
      | Some _, None, _ => Some "duration"
      | Some _, Some _, None => Some "date"
      | Some _, Some _, Some _ => None
      end).
Proof.
  cbn [first_missing py_in rbind].
  destruct (dict_get kv "module_id"); cbn [negb rbind]; [|reflexivity].
  destruct (dict_get kv "duration"); cbn [negb rbind]; [|reflexivity].
  destruct (dict_get kv "date"); reflexivity.
Qed.

Ltac run_session :=
  unfold create_session, try_except, bind, lift, ret, read;
  rewrite first_missing_dict.


(** A request that passes every check is stored and answered 201. *)
Lemma create_session_accepts
  (now : Z) (kv : list (string * pyval)) (w : world)
  (z : Z) (m : ModuleRow) (dur dt : pyval) (x : float) (d : date) :
  dict_get kv "module_id" = Some (VInt z) ->
  dict_get kv "duration" = Some dur ->
  dict_get kv "date" = Some dt ->
  py_le0 dur = Ok false ->
  py_float dur = Ok x ->
  f_is_nan x = false ->
  stored_key z ->
  find_module w z = Some m ->
  validate_date dt = Some d ->
  dict_get kv "notes" = None ->
  let s := {| ses_id := next_id (map ses_id (learning_sessions w));
              ses_module_id := z;
              ses_duration := x;
              ses_date := d;
              ses_notes := Some "";
              ses_created_at := now |} in
  let w' := set_sessions (learning_sessions w ++ [s]) w in
  create_session now (VDict kv) w =
  (w', Ok (respond (LearningSession_to_dict w' s) 201)).
Proof.
  intros Hm Hd Ht Hle Hfl Hnan Hkey Hfind Hdate Hnotes. cbv zeta.
  unfold create_session, try_except, bind, lift, ret, read.
  rewrite first_missing_dict, Hm, Hd, Ht. cbn [py_getitem py_get].
  rewrite Hd, Hle, Hm. cbn [Module_query_get].
  rewrite (bind_int_stored z Hkey). cbn [rbind]. rewrite Hfind, Ht, Hdate.
  rewrite Hfl, Hnotes. unfold commit_new_session. rewrite Hnan. reflexivity.
Qed.

End SessionCreate.

Section SessionList.

Context {RT : PyRuntime}.

Lemma sessions_by_date (w : world) :
  let rows := order_by_desc date_ltb ses_date (learning_sessions w) in
  Permutation rows (learning_sessions w) /\ StronglySorted newest_first rows.
Proof.
  cbv zeta. split; [apply order_by_desc_perm|].
  pose proof (order_by_desc_sorted _ _ date_ltb ses_date
                date_ltb_asym date_geb_trans (learning_sessions w)) as Hs.
  eapply StronglySorted_ind with (P := StronglySorted newest_first) in Hs;
    [exact Hs | constructor |].
  intros a l _ IH Hall. constructor; [exact IH|].
  rewrite Forall_forall in Hall |- *. intros b Hb.
  apply date_ltb_false. now apply Hall.
Qed.

(** C6, as amended. GET /sessions answers 200 with every session, most
    recent date first, when no limit is given; with a positive limit N
    that the store can bind, N below 2^63, it answers 200 with the first
    N rows of that order, hence with at most N items. *)
Theorem get_sessions_ordered_and_limited (w : world) :
  exists rows,
    Permutation rows (learning_sessions w) /\
    StronglySorted newest_first rows /\
    get_sessions None w =
      (w, Ok (respond (VList (map (LearningSession_to_dict w) rows)) 200)) /\
    forall N, 0 < N < 2 ^ 63 ->
      get_sessions (Some N) w =
        (w, Ok (respond
                  (VList (map (LearningSession_to_dict w)
                              (firstn (Z.to_nat N) rows))) 200)) /\
      Z.of_nat (List.length (firstn (Z.to_nat N) rows)) <= N.
Proof.
  exists (order_by_desc date_ltb ses_date (learning_sessions w)).
  destruct (sessions_by_date w) as [Hp Hs].
  split; [exact Hp|]. split; [exact Hs|]. split; [reflexivity|].
  intros N HN. split.
  - unfold get_sessions, try_except, bind, read, ret, lift.
    destruct (Z.eqb_spec N 0); [lia|]. cbn [negb].
    unfold sql_limit. rewrite bind_int_stored by (unfold stored_key,
      INT64_MIN, INT64_MAX; lia).
    cbn [rbind]. destruct (Z.ltb_spec N 0); [lia|]. reflexivity.
  - rewrite length_firstn. lia.
Qed.

(** C9. With limit=0 the handler answers exactly as without a limit:
    every session is returned, not an empty list. *)
Theorem get_sessions_limit_zero_returns_all (w : world) :
  get_sessions (Some 0) w = get_sessions None w /\
  exists rows,
    Permutation rows (learning_sessions w) /\
    get_sessions (Some 0) w =
      (w, Ok (respond (VList (map (LearningSession_to_dict w) rows)) 200)).
Proof.
  split; [reflexivity|].
  exists (order_by_desc date_ltb ses_date (learning_sessions w)).
  split; [apply order_by_desc_perm | reflexivity].
Qed.

End SessionList.

Section NullBody.

Context {RT : PyRuntime}.


End NullBody.

(* ================================================================== *)
(** * The dashboard *)
(* ================================================================== *)

Section Dashboard.

Context {RT : PyRuntime}.

Lemma latest_recommendation_most_recent (w : world) :
  most_recent w (latest_recommendation w).
Proof.
  unfold most_recent, latest_recommendation.
  pose proof (order_by_desc_first _ _ Z.ltb rec_created_at Z_ltb_asym
                Z_geb_trans (ai_recommendations w)) as H.
  destruct (hd_error _) as [r|]; [|exact H].
  destruct H as [Hin Hmax]. split; [exact Hin|].
  intros r' Hr'. specialize (Hmax r' Hr'). apply Z.ltb_ge in Hmax. exact Hmax.
Qed.

Lemma modules_to_dicts_total (w : world) (ms : list ModuleRow) :
  exists ds,
    modules_to_dicts w ms = Ok ds /\
    Forall2 (fun m d => Module_to_dict w m false = Ok d) ms ds.
Proof.
  induction ms as [|m rest [ds [IH HF]]]; cbn [modules_to_dicts].
  - exists []. split; [reflexivity | constructor].
  - destruct (Module_to_dict_spec w m false) as (kv & Hd & _).
    rewrite Hd, IH. cbn [rbind]. eexists. split; [reflexivity|].
    constructor; assumption.
Qed.

(** C2. On any store and any date, GET /dashboard answers 200 and reads
    nothing but the store: [hours_today], [hours_week] and [hours_month]
    are the sums of the durations of the sessions dated within
    [today, today], [Monday of today's week, today] and
    [first day of today's month, today], ends included, each rounded to 2
    decimals; [sessions_today] and [sessions_week] count the sessions of
    the first two windows; [total_modules] counts the modules; and
    [last_recommendation] is the most recently created recommendation, or
    null when there is none. *)
Theorem dashboard_statistics (w : world) (today : date) :
  valid_date today ->
  exists monday first ds,
    monday_of_week today monday /\
    first_of_month today first /\
    Forall2 (fun m d => Module_to_dict w m false = Ok d) (modules w) ds /\
    most_recent w (latest_recommendation w) /\
    get_dashboard today w =
      (w, Ok (respond
        (VDict [
           ("statistics", VDict [
              ("hours_today", num_val (spec_hours w today today));
              ("hours_week", num_val (spec_hours w monday today));
              ("hours_month", num_val (spec_hours w first today));
              ("sessions_today", VInt (spec_count w today today));
              ("sessions_week", VInt (spec_count w monday today));
              ("total_modules", VInt (Z.of_nat (List.length (modules w))))
           ]);
           ("modules", VList ds);
           ("last_recommendation",
              match latest_recommendation w with
              | Some r => AIRecommendation_to_dict r
              | None => VNone
              end)
         ]) 200)).
Proof.
  intros Hv.
  destruct (week_start_is_monday today Hv) as (monday & Hsub & Hmon).
  destruct (month_start_is_first today Hv) as (first & Hrep & Hfirst).
  destruct (modules_to_dicts_total w (modules w)) as (ds & Hds & HF).
  exists monday, first, ds.
  repeat split; try assumption; try apply Hmon; try apply Hfirst.
  - apply latest_recommendation_most_recent.
  - unfold get_dashboard, try_except, bind, lift, read, ret.
    rewrite Hsub, Hrep. cbn [opt_date]. rewrite Hds. reflexivity.
Qed.

End Dashboard.

(* ================================================================== *)
(** * The recommendation proxy *)
(* ================================================================== *)

Lemma append_nil_r (s : string) : s ++ "" = s.
Proof. induction s as [|c s IH]; cbn; [reflexivity | now rewrite IH]. Qed.

Lemma append_assoc (a b c : string) : (a ++ b) ++ c = a ++ (b ++ c).
Proof. induction a as [|x a IH]; cbn; [reflexivity | now rewrite IH]. Qed.

Section Recommendation.

Context {RT : PyRuntime}.

(** C7. When the API credential is empty or is the placeholder, POST
    /recommend answers 503 with a descriptive body and leaves the world as
    it was: no request is sent to the external service and no
    recommendation is stored. *)
Theorem recommend_unconfigured_503
  (cfg : config) (service : gemini_call -> result (option string))
  (now : Z) (w : world) :
  GEMINI_API_KEY cfg = "" \/ GEMINI_API_KEY cfg = "your-api-key-here" ->
  create_recommendation cfg service now w =
    (w, Ok (respond
              (VDict [("error", VStr "Gemini API nicht konfiguriert");
                      ("message",
                       VStr "Bitte GEMINI_API_KEY Umgebungsvariable setzen")])
              503)) /\
  gemini_calls (fst (create_recommendation cfg service now w)) =
    gemini_calls w /\
  ai_recommendations (fst (create_recommendation cfg service now w)) =
    ai_recommendations w.
Proof.
  intros H.
  assert (E : create_recommendation cfg service now w =
    (w, Ok (respond
              (VDict [("error", VStr "Gemini API nicht konfiguriert");
                      ("message",
                       VStr "Bitte GEMINI_API_KEY Umgebungsvariable setzen")])
              503))).
  { destruct H as [H|H]; unfold create_recommendation; rewrite H;
      reflexivity. }
  rewrite E. repeat split.
Qed.

Lemma remaining_hours_spec (w : world) (m : ModuleRow) :
  remaining_hours w m =
  Ok (spec_remaining (mod_target_hours m) (spec_actual_hours w m)).
Proof.
  unfold remaining_hours. rewrite get_actual_hours_spec.
  unfold spec_actual_hours. rewrite num_to_float_sum. reflexivity.
Qed.

Lemma prompt_line_spec (w : world) (m : ModuleRow) :
  prompt_line w m = Ok (spec_prompt_line w m).
Proof.
  unfold prompt_line. rewrite remaining_hours_spec. cbn [rbind].
  rewrite get_actual_hours_spec. reflexivity.
Qed.

Lemma add_module_lines_spec (w : world) (ms : list ModuleRow) (acc : string) :
  add_module_lines w ms acc = Ok (acc ++ join (map (spec_prompt_line w) ms)).
Proof.
  revert acc. induction ms as [|m rest IH]; intros acc; cbn [add_module_lines].
  - cbn. now rewrite append_nil_r.
  - rewrite prompt_line_spec. cbn [rbind]. rewrite IH.
    cbn [map join fold_right]. now rewrite append_assoc.
Qed.

Lemma build_prompt_spec (w : world) (ms : list ModuleRow) :
  build_prompt w ms =
  Ok ((PROMPT_HEADER ++ join (map (spec_prompt_line w) ms))
      ++ PROMPT_INSTRUCTIONS).
Proof. unfold build_prompt. now rewrite add_module_lines_spec. Qed.

Lemma join_contains (parts : list string) (p : string) :
  In p parts -> contains (join parts) p.
Proof.
  induction parts as [|q rest IH]; [intros []|].
  intros [->|Hin].
  - exists "", (join rest). reflexivity.
  - destruct (IH Hin) as (b & a & Hb).
    exists (q ++ b), a. cbn [join fold_right]. fold (join rest).
    rewrite Hb. now rewrite append_assoc.
Qed.

Lemma contains_within (pre post s p : string) :
  contains s p -> contains ((pre ++ s) ++ post) p.
Proof.
  intros (b & a & ->). exists (pre ++ b), (a ++ post).
  now rewrite !append_assoc.
Qed.

Lemma key_configured (cfg : config) :
  GEMINI_API_KEY cfg <> "" ->
  GEMINI_API_KEY cfg <> "your-api-key-here" ->
  (String.length (GEMINI_API_KEY cfg) =? 0)%nat
  || String.eqb (GEMINI_API_KEY cfg) "your-api-key-here" = false.
Proof.
  intros H1 H2. apply orb_false_iff. split.
  - destruct (GEMINI_API_KEY cfg); [congruence | reflexivity].
  - now apply String.eqb_neq.
Qed.

(** C8. With the credential configured, POST /recommend answers 400 and
    leaves the world as it was when no module is stored; otherwise the
    prompt it sends lists every module with its name, its target hours,
    its actual hours and max(0, target_hours - actual_hours). *)
Theorem recommendation_needs_modules
  (cfg : config) (service : gemini_call -> result (option string))
  (now : Z) (w : world) :
  GEMINI_API_KEY cfg <> "" ->
  GEMINI_API_KEY cfg <> "your-api-key-here" ->
  (modules w = [] ->
   create_recommendation cfg service now w =
   (w, Ok (respond
             (VDict [("error", VStr "Keine Module vorhanden");
                     ("message",
                      VStr ("Bitte erstelle zuerst Module, bevor du " ++
                            "eine Empfehlung anforderst"))])
             400)))
  /\
  (modules w <> [] ->
   exists prompt,
     build_prompt w (modules w) = Ok prompt /\
     gemini_calls (fst (create_recommendation cfg service now w)) =
       (gemini_calls w ++
        [{| call_model := GEMINI_MODEL cfg;
            call_prompt := prompt;
            call_temperature := GEMINI_TEMPERATURE cfg;
            call_max_tokens := GEMINI_MAX_TOKENS cfg |}])%list /\
     forall m, In m (modules w) -> contains prompt (spec_prompt_line w m)).
Proof.
  intros H1 H2. pose proof (key_configured cfg H1 H2) as Hkey.
  split.
  - intros Hnone. unfold create_recommendation, try_except, bind, read, ret.
    rewrite Hkey, Hnone. reflexivity.
  - intros Hsome. eexists. split; [apply build_prompt_spec|]. split.
    + unfold create_recommendation, try_except, bind, read, ret, lift.
      rewrite Hkey. destruct (modules w) as [|m0 ms] eqn:Hms; [congruence|].
      rewrite build_prompt_spec. unfold generate_content.
      destruct (service _) as [[t|]|e|]; try reflexivity.
      destruct (String.length t =? 0)%nat; reflexivity.
    + intros m Hin. apply contains_within. apply join_contains.
      now apply in_map.
Qed.

End Recommendation.

(* ================================================================== *)
(** * The reachable states and the cascade *)
(* ================================================================== *)

Section Effects.

Context {RT : PyRuntime}.

Ltac atomic x :=
  lazymatch x with
  | context [match _ with _ => _ end] => fail
  | context [if _ then _ else _] => fail
  | _ => idtac
  end.

Ltac run :=
  unfold try_except, bind, raise, lift, ret, read,
         Module_query_get, Module_get_or_404, LearningSession_get_or_404,
         commit_new_module, commit_new_session, commit_new_recommendation,
         commit_delete_module, commit_delete_session, generate_content,
         rbind;
  repeat first
    [ progress cbv beta iota zeta
    | match goal with
      | |- context [match ?x with _ => _ end] => atomic x; destruct x eqn:?
      | |- context [if ?x then _ else _] => atomic x; destruct x eqn:?
      end ].

Ltac unchanged := apply effect_none; reflexivity.

Lemma create_module_effect (now : Z) (data : pyval) (w : world) :
  effect w (fst (create_module now data w)).
Proof.
  unfold create_module. run; try unchanged.
  all: apply effect_new_module; reflexivity.
Qed.

Lemma create_session_effect (now : Z) (data : pyval) (w : world) :
  effect w (fst (create_session now data w)).
Proof.
  unfold create_session. run; try unchanged.
  all: bound_key; apply effect_new_session; cbn; congruence.
Qed.

Lemma find_module_id (w : world) (i : Z) (m : ModuleRow) :
  find_module w i = Some m -> In m (modules w) /\ mod_id m = i.
Proof.
  unfold find_module. intros H. apply find_some in H.
  destruct H as [Hin Heq]. apply Z.eqb_eq in Heq. auto.
Qed.

Lemma find_session_id (w : world) (i : Z) (s : LearningSession) :
  find_session w i = Some s -> In s (learning_sessions w) /\ ses_id s = i.
Proof.
  unfold find_session. intros H. apply find_some in H.
  destruct H as [Hin Heq]. apply Z.eqb_eq in Heq. auto.
Qed.

Lemma delete_module_effect (i : Z) (w : world) :
  effect w (fst (delete_module i w)).
Proof.
  unfold delete_module. run; try unchanged.
  match goal with H : find_module w i = Some _ |- _ =>
    apply find_module_id in H; destruct H as [_ <-] end.
  apply effect_delete_module.
Qed.

Lemma delete_session_effect (i : Z) (w : world) :
  effect w (fst (delete_session i w)).
Proof.
  unfold delete_session. run; try unchanged.
  apply effect_delete_session.
Qed.

Lemma create_recommendation_effect
  (cfg : config) (service : gemini_call -> result (option string))
  (now : Z) (w : world) :
  effect w (fst (create_recommendation cfg service now w)).
Proof. unfold create_recommendation. run; unchanged. Qed.

Lemma read_only_effects (w : world) :
  fst (get_modules w) = w /\
  (forall i, fst (get_module i w) = w) /\
  (forall limit, fst (get_sessions limit w) = w) /\
  fst (get_recommendation w) = w /\
  (forall today, fst (get_dashboard today w) = w).
Proof.
  split; [|split; [|split; [|split]]]; intros.
  - unfold get_modules. run; reflexivity.
  - unfold get_module. run; reflexivity.
  - unfold get_sessions. run; reflexivity.
  - unfold get_recommendation. run; reflexivity.
  - unfold get_dashboard. run; reflexivity.
Qed.

Lemma serve_effect (r : request) (w : world) : effect w (fst (serve r w)).
Proof.
  destruct (read_only_effects w) as (H1 & H2 & H3 & H4 & H5).
  destruct r; cbn [serve];
    rewrite ?H1, ?H2, ?H3, ?H4, ?H5; try unchanged.
  - apply create_module_effect.
  - apply delete_module_effect.
  - apply create_session_effect.
  - apply delete_session_effect.
  - apply create_recommendation_effect.
Qed.

End Effects.

Section Invariants.

Context {RT : PyRuntime}.

Lemma max_id_bound (ids : list Z) (x : Z) :
  In x ids -> x <= fold_right Z.max 0 ids.
Proof.
  induction ids as [|y ys IH]; [intros []|].
  cbn [fold_right]. intros [->|H]; [lia|]. specialize (IH H). lia.
Qed.

Lemma next_id_fresh (ids : list Z) : ~ In (next_id ids) ids.
Proof.
  intros H. apply max_id_bound in H. unfold next_id in H. lia.
Qed.

Lemma NoDup_map_filter {A : Type} (f : A -> Z) (p : A -> bool) (l : list A) :
  NoDup (map f l) -> NoDup (map f (filter p l)).
Proof.
  induction l as [|x xs IH]; cbn [map filter]; [auto|].
  intros H. apply NoDup_cons_iff in H. destruct H as [Hnin Hnd].
  destruct (p x); cbn [map]; [|auto].
  constructor; [|auto].
  intros Hin. apply Hnin. apply in_map_iff in Hin.
  destruct Hin as (y & Hy & Hiny). apply filter_In in Hiny.
  apply in_map_iff. exists y. tauto.
Qed.

Lemma NoDup_map_snoc {A : Type} (f : A -> Z) (l : list A) (x : A) :
  NoDup (map f l) -> ~ In (f x) (map f l) -> NoDup (map f (l ++ [x])).
Proof.
  intros Hnd Hnin. rewrite map_app. cbn [map].
  apply NoDup_app; [assumption | repeat constructor; intros [] |].
  intros a Ha [<-|[]]. contradiction.
Qed.

Lemma effect_preserves_invariant (w w' : world) :
  invariant w -> effect w w' -> invariant w'.
Proof.
  intros [Href [Hm Hs]] Heff.
  destruct Heff as [w' Em Es | m Hid | s Hid Hfind | i | i];
    unfold invariant, sessions_reference_modules, keys_unique;
    cbn [modules learning_sessions set_modules set_sessions].
  - rewrite Em, Es. auto.
  - split; [|split; [|assumption]].
    + intros s Hin. destruct (Href s Hin) as (m' & Hin' & E).
      exists m'. split; [apply in_or_app; now left | assumption].
    + apply NoDup_map_snoc; [assumption|]. rewrite Hid. apply next_id_fresh.
  - split; [|split; [assumption|]].
    + intros s' Hin. apply in_app_or in Hin. destruct Hin as [Hin|[<-|[]]].
      * now apply Href.
      * destruct (find_module w (ses_module_id s)) as [m|] eqn:Ef;
          [|congruence].
        apply find_module_id in Ef. exists m. exact Ef.
    + apply NoDup_map_snoc; [assumption|]. rewrite Hid. apply next_id_fresh.
  - split; [|split; now apply NoDup_map_filter].
    intros s Hin. apply filter_In in Hin. destruct Hin as [Hin Hne].
    destruct (Href s Hin) as (m & Hinm & E).
    exists m. split; [|assumption].
    apply filter_In. split; [assumption|]. now rewrite E.
  - split; [|split; [assumption | now apply NoDup_map_filter]].
    intros s Hin. apply filter_In in Hin. destruct Hin as [Hin _].
    now apply Href.
Qed.

(** In every state the service reaches, each session belongs to a stored
    module and keys identify one row. *)
Lemma reachable_invariant (w : world) : reachable w -> invariant w.
Proof.
  induction 1 as [|w r Hr IH].
  - split; [intros s []|split; constructor].
  - eapply effect_preserves_invariant; [exact IH | apply serve_effect].
Qed.

Lemma reachable_sessions_reference_modules (w : world) :
  reachable w -> sessions_reference_modules w.
Proof. intros H. now apply reachable_invariant. Qed.

Lemma delete_module_missing (i : Z) (w : world) :
  find_module w i = None ->
  delete_module i w = (w, Ok (error_500 NotFound)).
Proof.
  intros H. unfold delete_module, try_except, bind, Module_get_or_404.
  now rewrite H.
Qed.

Lemma delete_session_missing (i : Z) (w : world) :
  find_session w i = None ->
  delete_session i w = (w, Ok (error_500 NotFound)).
Proof.
  intros H. unfold delete_session, try_except, bind, LearningSession_get_or_404.
  now rewrite H.
Qed.

(** Deleting a stored module removes it with all of its sessions. *)
Lemma delete_module_cascade (i : Z) (w : world) (m : ModuleRow) :
  find_module w i = Some m ->
  delete_module i w =
    (without_module i w,
     Ok (respond
           (VDict [("message",
                    VStr ("Modul " ++ dquote ++ mod_name m ++ dquote ++
                          " erfolgreich gelöscht"))]) 200)) /\
  find_module (without_module i w) i = None /\
  (forall s, In s (learning_sessions (without_module i w)) <->
             In s (learning_sessions w) /\ ses_module_id s <> i) /\
  (keys_unique w ->
   forall s, In s (learning_sessions w) -> ses_module_id s = i ->
   find_session (without_module i w) (ses_id s) = None /\
   delete_session (ses_id s) (without_module i w) =
     (without_module i w, Ok (error_500 NotFound))).
Proof.
  intros Hfind. pose proof (find_module_id _ _ _ Hfind) as [Hin Hid].
  assert (Hsess : forall s, In s (learning_sessions (without_module i w)) <->
                            In s (learning_sessions w) /\ ses_module_id s <> i).
  { intros s. cbn [without_module learning_sessions set_modules set_sessions].
    rewrite filter_In, negb_true_iff, Z.eqb_neq. reflexivity. }
  split; [|split; [|split; [exact Hsess|]]].
  - unfold delete_module, try_except, bind, Module_get_or_404, ret,
      commit_delete_module.
    rewrite Hfind. cbv beta iota. rewrite Hid. reflexivity.
  - unfold find_module. cbn [without_module modules set_modules].
    destruct (find _ _) as [m'|] eqn:Ef; [|reflexivity].
    apply find_some in Ef. destruct Ef as [Hin' Heq].
    apply filter_In in Hin'. destruct Hin' as [_ Hne].
    rewrite Heq in Hne. discriminate.
  - intros [_ Hnd] s Hs Hmod.
    assert (Hnone : find_session (without_module i w) (ses_id s) = None).
    { destruct (find_session _ _) as [s'|] eqn:Ef; [|reflexivity].
      apply find_session_id in Ef. destruct Ef as [Hin' Heq].
      apply Hsess in Hin'. destruct Hin' as [Hin' Hne].
      assert (s' = s); [|congruence].
      clear - Hnd Hs Hin' Heq.
      induction (learning_sessions w) as [|x xs IH]; [destruct Hs|].
      cbn [map] in Hnd. apply NoDup_cons_iff in Hnd.
      destruct Hnd as [Hnin Hnd'].
      destruct Hs as [->|Hs], Hin' as [->|Hin']; auto.
      - exfalso. apply Hnin. rewrite <- Heq. now apply in_map.
      - exfalso. apply Hnin. rewrite Heq. now apply in_map. }
    split; [exact Hnone | now apply delete_session_missing].
Qed.

End Invariants.

(** C1. Deleting a module that does not exist: [get_or_404] raises
    NotFound inside the [try] block, the [except Exception] arm catches
    it, and the handler answers 500 with the text of the exception, not
    the 404 of the specification and of the registered [not_found]
    handler. (The cascade and the referential invariant hold: see
    [delete_module_cascade] and [reachable_sessions_reference_modules].) *)
Theorem delete_missing_module_answers_500 :
  forall RT : PyRuntime,
    @delete_module RT 7 empty_world = (empty_world, Ok (error_500 NotFound)) /\
    status_of (@delete_module RT 7 empty_world) = Some 500 /\
    snd (@delete_module RT 7 empty_world) <> Ok not_found.
Proof.
  intros RT.
  assert (E : @delete_module RT 7 empty_world
              = (empty_world, Ok (error_500 NotFound)))
    by (apply delete_module_missing; reflexivity).
  rewrite E. split; [reflexivity|]. split; [reflexivity|].
  cbn [snd]. intros H. injection H as H. discriminate H.
Qed.

(* ================================================================== *)
(** * Further properties of the handlers *)
(* ================================================================== *)

(** Runs a handler symbolically: the monad is unfolded and the innermost
    undecided test is split, until every path has ended. *)
Ltac undecided x :=
  lazymatch x with
  | context [match _ with _ => _ end] => fail
  | context [if _ then _ else _] => fail
  | _ => idtac
  end.

Ltac exec :=
  unfold try_except, bind, raise, lift, ret, read,
         Module_query_get, Module_get_or_404, LearningSession_get_or_404,
         commit_new_module, commit_new_session, commit_new_recommendation,
         commit_delete_module, commit_delete_session, generate_content,
         rbind;
  repeat first
    [ progress cbv beta iota zeta
    | match goal with
      | |- context [match ?x with _ => _ end] => undecided x; destruct x eqn:?
      | |- context [if ?x then _ else _] => undecided x; destruct x eqn:?
      end ].

(** Closes a path whose reply has another status than the one asked for. *)
Ltac other_status :=
  unfold status_of; cbn [snd status respond error_500]; discriminate.

(** Closes a path on which the serialisation of a module has failed:
    there is none. *)
Ltac serialized :=
  match goal with
  | H : Module_to_dict ?w ?m ?b = _ |- _ =>
      let E := fresh in
      destruct (Module_to_dict_spec w m b) as (? & E & _);
      rewrite E in H; discriminate H
  end.

Ltac same_value :=
  repeat match goal with
         | H : Some _ = Some _ |- _ => injection H as H
         | H : Ok _ = Ok _ |- _ => injection H as H
         end; subst.

(* ------------------------------------------------------------------ *)
(** ** Creating modules and sessions *)
(* ------------------------------------------------------------------ *)

Section Writes.

Context {RT : PyRuntime}.

(** What a 201 of Session Create says about the request and the store. *)
Lemma create_session_created (now : Z) (data : pyval) (w : world) :
  status_of (create_session now data w) = Some 201 ->
  exists kv s,
    data = VDict kv /\
    create_session now data w =
      (set_sessions (learning_sessions w ++ [s]) w,
       Ok (respond
             (LearningSession_to_dict
                (set_sessions (learning_sessions w ++ [s]) w) s) 201)) /\
    ses_id s = next_id (map ses_id (learning_sessions w)) /\
    dict_get kv "module_id" = Some (VInt (ses_module_id s)) /\
    stored_key (ses_module_id s) /\
    find_module w (ses_module_id s) <> None /\
    (exists dv, dict_get kv "duration" = Some dv /\
                py_le0 dv = Ok false /\ py_float dv = Ok (ses_duration s)) /\
    f_is_nan (ses_duration s) = false /\
    (exists dt, dict_get kv "date" = Some dt /\
                validate_date dt = Some (ses_date s)) /\
    opt_str (ses_notes s) =
      match dict_get kv "notes" with Some v => v | None => VStr "" end /\
    ses_created_at s = now.
Proof.
  destruct data as [| b | z | x | str | l | kv];
    try (unfold create_session; cbn [first_missing py_in rbind negb];
         exec; other_status).
  unfold create_session. rewrite first_missing_dict.
  unfold py_getitem, py_get. exec; try other_status.
  all: intros _; eexists; eexists; split; [reflexivity|].
  all: same_value.
  all: match goal with
       | H : bind_int _ = Ok _ |- _ =>
           apply bind_int_ok in H; destruct H as [-> Hkey]
       end.
  all: split; [reflexivity|].
  all: cbn [ses_id ses_module_id ses_duration ses_date ses_notes
            ses_created_at opt_str].
  all: split; [reflexivity|]; split; [assumption|]; split; [exact Hkey|].
  all: split; [congruence|].
  all: split; [eauto|]; split; [assumption|]; split; [eauto|].
  all: split; [|reflexivity].
  all: match goal with H : dict_get _ "notes" = _ |- _ => now rewrite H end.
Qed.

(** What a 201 of Module Create says about the store. *)
Lemma create_module_created (now : Z) (data : pyval) (w : world) :
  status_of (create_module now data w) = Some 201 ->
  exists m d,
    create_module now data w =
      (set_modules (modules w ++ [m]) w, Ok (respond d 201)) /\
    Module_to_dict (set_modules (modules w ++ [m]) w) m false = Ok d /\
    mod_id m = next_id (map mod_id (modules w)) /\
    mod_created_at m = now.
Proof.
  unfold create_module. exec; try other_status.
  all: intros _; eexists; eexists; split; [reflexivity|].
  all: split; [assumption|]; split; reflexivity.
Qed.

(** X1. Session Create is all or nothing. Whatever the body, as long as
    the store is handed values of its column types, the handler either
    answers 201 and has added exactly one session, of a stored module,
    under a key no stored session has and with the current time, or it
    answers otherwise and has written nothing. *)
Theorem create_session_all_or_nothing (now : Z) (data : pyval) (w : world) :
  snd (create_session now data w) <> OutOfModel ->
  (status_of (create_session now data w) = Some 201 /\
   exists s,
     fst (create_session now data w)
       = set_sessions (learning_sessions w ++ [s]) w /\
     find_module w (ses_module_id s) <> None /\
     ~ In (ses_id s) (map ses_id (learning_sessions w)) /\
     ses_created_at s = now)
  \/
  (exists r,
     create_session now data w = (w, Ok r) /\ status r <> 201).
Proof.
  unfold create_session. exec; cbn [snd]; intros Hin;
    try (now elim Hin);
    try (right; eexists; split; [reflexivity | cbn; discriminate]).
  all: bound_key.
  all: left; split; [reflexivity|]; eexists; split; [reflexivity|];
    cbn [ses_module_id ses_id ses_created_at];
    split; [congruence|]; split; [apply next_id_fresh | reflexivity].
Qed.

(** X2. Module Create is all or nothing. Whatever the body, as long as the
    store is handed values of its column types, the handler either answers
    201 and has added exactly one module, under a key no stored module has
    and with the current time, or it answers otherwise and has written
    nothing. *)
Theorem create_module_all_or_nothing (now : Z) (data : pyval) (w : world) :
  snd (create_module now data w) <> OutOfModel ->
  (status_of (create_module now data w) = Some 201 /\
   exists m,
     fst (create_module now data w) = set_modules (modules w ++ [m]) w /\
     ~ In (mod_id m) (map mod_id (modules w)) /\
     mod_created_at m = now)
  \/
  (exists r,
     create_module now data w = (w, Ok r) /\ status r <> 201).
Proof.
  unfold create_module. exec; cbn [snd]; intros Hin;
    try (now elim Hin);
    try (right; eexists; split; [reflexivity | cbn; discriminate]);
    try serialized.
  all: left; split; [reflexivity|]; eexists; split; [reflexivity|];
    cbn [mod_id mod_created_at];
    split; [apply next_id_fresh | reflexivity].
Qed.


(** A value that is not a number: null, a text, a list or an object. *)
Lemma not_a_number_lt0 (v : pyval) :
  v = VNone \/ (exists s, v = VStr s) \/ (exists l, v = VList l) \/
  (exists kv, v = VDict kv) ->
  py_lt0 v = Raise TypeError /\ py_le0 v = Raise TypeError.
Proof.
  intros [->|[[s ->]|[[l ->]|[kv ->]]]]; split; reflexivity.
Qed.

(** X4. A [target_hours] that is not a number is not refused with 400: the
    comparison with zero raises, the module is not stored and the answer
    is 500 with the text of the TypeError. This holds for a number sent as
    text, too. *)
Theorem create_module_non_numeric_target_hours
  (now : Z) (kv : list (string * pyval)) (w : world) (n t : pyval) :
  dict_get kv "name" = Some n ->
  dict_get kv "target_hours" = Some t ->
  t = VNone \/ (exists s, t = VStr s) \/ (exists l, t = VList l) \/
  (exists kv', t = VDict kv') ->
  create_module now (VDict kv) w = (w, Ok (error_500 TypeError)).
Proof.
  intros Hn Ht Hbad. apply not_a_number_lt0 in Hbad. destruct Hbad as [Hlt _].
  unfold create_module, try_except, bind, lift, ret, py_in, py_getitem.
  rewrite (dict_get_truthy _ _ _ Hn), Hn, Ht. cbn [negb].
  cbv beta iota. rewrite Hlt. reflexivity.
Qed.

(** X5. A [duration] that is not a number is not refused with 400 either:
    with the three required fields present, the answer is 500 and no
    session is stored. *)
Theorem create_session_non_numeric_duration
  (now : Z) (kv : list (string * pyval)) (w : world) (mid dur dt : pyval) :
  dict_get kv "module_id" = Some mid ->
  dict_get kv "duration" = Some dur ->
  dict_get kv "date" = Some dt ->
  dur = VNone \/ (exists s, dur = VStr s) \/ (exists l, dur = VList l) \/
  (exists kv', dur = VDict kv') ->
  create_session now (VDict kv) w = (w, Ok (error_500 TypeError)).
Proof.
  intros Hm Hd Ht Hbad. apply not_a_number_lt0 in Hbad.
  destruct Hbad as [_ Hle].
  unfold create_session. rewrite first_missing_dict, Hm, Hd, Ht.
  unfold try_except, bind, lift, ret, py_getitem. rewrite Hd.
  cbv beta iota. rewrite Hle. reflexivity.
Qed.

(** X6. A null [name] passes the validation, which only asks for the key,
    and is refused by the store, whose column is NOT NULL: the answer is
    500, not 400, and nothing is stored. *)
Theorem create_module_null_name
  (now : Z) (kv : list (string * pyval)) (w : world) (t : pyval) (x : float) :
  dict_get kv "name" = Some VNone ->
  dict_get kv "target_hours" = Some t ->
  py_lt0 t = Ok false ->
  py_float t = Ok x ->
  dict_get kv "exam_date" = None ->
  create_module now (VDict kv) w = (w, Ok (error_500 IntegrityError)).
Proof.
  intros Hn Ht Hlt Hf He.
  unfold create_module, try_except, bind, lift, ret, py_in, py_getitem,
    commit_new_module.
  rewrite (dict_get_truthy _ _ _ Hn), Hn, Ht, He. cbn [negb].
  cbv beta iota. rewrite Hlt. cbv beta iota. rewrite Hf. reflexivity.
Qed.

End Writes.

(* ------------------------------------------------------------------ *)
(** ** Reading and deleting by key *)
(* ------------------------------------------------------------------ *)

Section ByKey.

Context {RT : PyRuntime}.

Lemma find_filter_other {A : Type} (key : A -> Z) (i j : Z) (l : list A) :
  j <> i ->
  find (fun x => key x =? j) (filter (fun x => negb (key x =? i)) l)
  = find (fun x => key x =? j) l.
Proof.
  intros Hne. induction l as [|x xs IH]; [reflexivity|].
  cbn [filter find].
  destruct (key x =? i) eqn:Ei; cbn [negb find].
  - apply Z.eqb_eq in Ei.
    destruct (key x =? j) eqn:Ej; [apply Z.eqb_eq in Ej; lia | exact IH].
  - destruct (key x =? j); [reflexivity | exact IH].
Qed.

Lemma find_filter_same {A : Type} (key : A -> Z) (i : Z) (l : list A) :
  find (fun x => key x =? i) (filter (fun x => negb (key x =? i)) l) = None.
Proof.
  induction l as [|x xs IH]; [reflexivity|].
  cbn [filter]. destruct (key x =? i) eqn:Ei; cbn [negb find]; [exact IH|].
  now rewrite Ei.
Qed.

Lemma filter_comm {A : Type} (p q : A -> bool) (l : list A) :
  filter p (filter q l) = filter q (filter p l).
Proof.
  induction l as [|x xs IH]; [reflexivity|].
  cbn [filter]. destruct (p x) eqn:P, (q x) eqn:Q; cbn [filter];
    rewrite ?P, ?Q, IH; reflexivity.
Qed.

Lemma get_module_missing (i : Z) (w : world) :
  find_module w i = None ->
  get_module i w = (w, Ok (error_500 NotFound)).
Proof.
  intros H. unfold get_module, try_except, bind, Module_get_or_404.
  now rewrite H.
Qed.

Lemma get_module_found (i : Z) (w : world) (m : ModuleRow) :
  find_module w i = Some m ->
  exists d,
    Module_to_dict w m true = Ok d /\
    get_module i w = (w, Ok (respond d 200)).
Proof.
  intros H. destruct (Module_to_dict_spec w m true) as (kv & Hd & _).
  exists (VDict kv). split; [exact Hd|].
  unfold get_module, try_except, bind, Module_get_or_404, read, lift, ret.
  rewrite H. cbv beta iota. now rewrite Hd.
Qed.

(** X7. Module Get on a stored module answers 200 with the fields of the
    module, its hours recomputed from the sessions, and under [sessions]
    the serialised sessions of this module and of no other; the store is
    not written. *)
Theorem get_module_shows_the_module (i : Z) (w : world) (m : ModuleRow) :
  find_module w i = Some m ->
  exists kv,
    get_module i w = (w, Ok (respond (VDict kv) 200)) /\
    dict_get kv "id" = Some (VInt i) /\
    dict_get kv "name" = Some (VStr (mod_name m)) /\
    dict_get kv "target_hours" = Some (VFloat (mod_target_hours m)) /\
    dict_get kv "actual_hours" = Some (num_val (get_actual_hours w m)) /\
    dict_get kv "sessions" =
      Some (VList (map (LearningSession_to_dict w) (sessions_of w m))) /\
    forall s, In s (sessions_of w m) <->
              In s (learning_sessions w) /\ ses_module_id s = i.
Proof.
  intros H. pose proof (find_module_id _ _ _ H) as [_ Hid].
  unfold get_module, try_except, bind, Module_get_or_404, read, lift, ret.
  rewrite H. cbv beta iota. unfold Module_to_dict.
  rewrite get_progress_percentage_spec. cbn [rbind].
  eexists. split; [reflexivity|].
  rewrite <- Hid.
  split; [reflexivity|]. split; [reflexivity|]. split; [reflexivity|].
  split; [reflexivity|]. split; [reflexivity|].
  intros s. unfold sessions_of. rewrite filter_In, Z.eqb_eq. reflexivity.
Qed.



Lemma delete_session_found (i : Z) (w : world) (s : LearningSession) :
  find_session w i = Some s ->
  delete_session i w =
    (set_sessions
       (filter (fun x => negb (ses_id x =? i)) (learning_sessions w)) w,
     Ok (respond (VDict [("message", VStr "Session erfolgreich gelöscht")])
                 200)).
Proof.
  intros H. pose proof (find_session_id _ _ _ H) as [_ Hid].
  unfold delete_session, try_except, bind, LearningSession_get_or_404, ret,
    commit_delete_session.
  rewrite H. cbv beta iota. rewrite Hid. reflexivity.
Qed.

(** X10. Session Delete on a stored session answers 200 with the message,
    removes the session with this key and nothing else: the other sessions
    and all modules stay, every module's session list loses at most this
    session, and a second delete of the key is answered 500. *)
Theorem delete_session_removes_the_session
  (i : Z) (w : world) (s : LearningSession) :
  find_session w i = Some s ->
  status_of (delete_session i w) = Some 200 /\
  reply_field (delete_session i w) "message"
    = Some (VStr "Session erfolgreich gelöscht") /\
  modules (fst (delete_session i w)) = modules w /\
  ai_recommendations (fst (delete_session i w)) = ai_recommendations w /\
  (forall x, In x (learning_sessions (fst (delete_session i w))) <->
             In x (learning_sessions w) /\ ses_id x <> i) /\
  (forall m, sessions_of (fst (delete_session i w)) m
             = filter (fun x => negb (ses_id x =? i)) (sessions_of w m)) /\
  status_of (delete_session i (fst (delete_session i w))) = Some 500.
Proof.
  intros H. rewrite (delete_session_found i w s H). cbn [fst].
  split; [reflexivity|]. split; [reflexivity|]. split; [reflexivity|].
  split; [reflexivity|]. split; [|split].
  - intros x. cbn [learning_sessions set_sessions].
    rewrite filter_In, negb_true_iff, Z.eqb_neq. reflexivity.
  - intros m. unfold sessions_of. cbn [learning_sessions set_sessions].
    apply filter_comm.
  - rewrite delete_session_missing; [reflexivity|].
    unfold find_session. cbn [learning_sessions set_sessions].
    apply (find_filter_same ses_id).
Qed.

(** The serialisation of a module does not look at other modules or at
    their sessions. *)
Lemma Module_to_dict_frame (w w' : world) (m : ModuleRow) (inc : bool) :
  sessions_of w' m = sessions_of w m ->
  (forall s, In s (sessions_of w m) -> module_of w' s = module_of w s) ->
  Module_to_dict w' m inc = Module_to_dict w m inc.
Proof.
  intros Hs Hm. unfold Module_to_dict, get_progress_percentage,
    get_actual_hours.
  rewrite Hs.
  replace (map (LearningSession_to_dict w') (sessions_of w m))
    with (map (LearningSession_to_dict w) (sessions_of w m)); [reflexivity|].
  apply map_ext_in. intros s Hin. unfold LearningSession_to_dict.
  now rewrite (Hm s Hin).
Qed.

(** X11. Deleting module [i] changes nothing in what Module Get answers
    for any other key: the other modules keep their fields, their sessions
    and their hours. *)
Theorem delete_module_leaves_other_modules (i j : Z) (w : world) :
  j <> i ->
  snd (get_module j (fst (delete_module i w))) = snd (get_module j w).
Proof.
  intros Hne.
  destruct (find_module w i) as [m|] eqn:Hi;
    [|now rewrite (delete_module_missing i w Hi)].
  destruct (delete_module_cascade i w m Hi) as (Heq & _).
  rewrite Heq. cbn [fst].
  assert (Hfind : find_module (without_module i w) j = find_module w j).
  { unfold find_module. cbn [without_module modules set_modules].
    now apply (find_filter_other mod_id). }
  destruct (find_module w j) as [mj|] eqn:Hj.
  - pose proof (find_module_id _ _ _ Hj) as [_ Hid].
    destruct (get_module_found j _ mj Hfind) as (d' & Hd' & ->).
    destruct (get_module_found j _ mj Hj) as (d & Hd & ->).
    cbn [snd]. do 2 f_equal.
    rewrite Module_to_dict_frame with (w := w) in Hd'; [congruence | |].
    + unfold sessions_of.
      cbn [without_module learning_sessions set_modules set_sessions].
      induction (learning_sessions w) as [|x xs IH]; [reflexivity|].
      cbn [filter]. destruct (ses_module_id x =? i) eqn:Ei; cbn [negb filter].
      * apply Z.eqb_eq in Ei.
        destruct (ses_module_id x =? mod_id mj) eqn:Ej;
          [apply Z.eqb_eq in Ej; lia | exact IH].
      * destruct (ses_module_id x =? mod_id mj); [now rewrite IH | exact IH].
    + intros s Hin. unfold sessions_of in Hin. apply filter_In in Hin.
      destruct Hin as [_ Hs]. apply Z.eqb_eq in Hs.
      unfold module_of. cbn [without_module modules set_modules].
      apply (find_filter_other mod_id). lia.
  - now rewrite (get_module_missing j _ Hfind), (get_module_missing j _ Hj).
Qed.

(** X12. Module List never fails: it answers 200 with one object for each
    stored module, without a [sessions] entry, and does not write the
    store. *)
Theorem get_modules_lists_every_module (w : world) :
  exists ds,
    get_modules w = (w, Ok (respond (VList ds) 200)) /\
    Forall2 (fun m d =>
               exists kv,
                 d = VDict kv /\
                 dict_get kv "id" = Some (VInt (mod_id m)) /\
                 dict_get kv "name" = Some (VStr (mod_name m)) /\
                 dict_get kv "actual_hours"
                   = Some (num_val (get_actual_hours w m)) /\
                 dict_get kv "sessions" = None)
            (modules w) ds.
Proof.
  destruct (modules_to_dicts_total w (modules w)) as (ds & Hds & HF).
  exists ds. split.
  - unfold get_modules, try_except, bind, read, lift, ret. now rewrite Hds.
  - clear Hds. induction HF as [|m d ms ds' Hd _ IH]; constructor; [|exact IH].
    unfold Module_to_dict in Hd. rewrite get_progress_percentage_spec in Hd.
    cbn [rbind] in Hd. injection Hd as <-.
    eexists. split; [reflexivity|]. repeat split.
Qed.

(** X13. Recommendation Get answers 404 with a message exactly when no
    recommendation is stored, and otherwise 200 with a stored
    recommendation that none was created after; it does not write the
    store. *)
Theorem get_recommendation_latest_or_404 (w : world) :
  (ai_recommendations w = [] /\
   get_recommendation w =
     (w, Ok (respond
               (VDict [("message", VStr "Noch keine Empfehlung vorhanden")])
               404)))
  \/
  (exists r,
     In r (ai_recommendations w) /\
     (forall r', In r' (ai_recommendations w) ->
                 rec_created_at r' <= rec_created_at r) /\
     get_recommendation w = (w, Ok (respond (AIRecommendation_to_dict r) 200))).
Proof.
  pose proof (latest_recommendation_most_recent w) as H.
  unfold get_recommendation, try_except, bind, read, ret.
  destruct (latest_recommendation w) as [r|]; cbn [most_recent] in H.
  - right. exists r. destruct H as [Hin Hmax]. repeat split; assumption.
  - left. split; [exact H | reflexivity].
Qed.

End ByKey.

(* ------------------------------------------------------------------ *)
(** ** Asking for a recommendation *)
(* ------------------------------------------------------------------ *)

Section Upstream.

Context {RT : PyRuntime}.

(** With a credential and a module, the handler sends one request and
    answers by what comes back. *)
Lemma create_recommendation_sends
  (cfg : config) (service : gemini_call -> result (option string))
  (now : Z) (w : world) (prompt : string) :
  GEMINI_API_KEY cfg <> "" ->
  GEMINI_API_KEY cfg <> "your-api-key-here" ->
  modules w <> [] ->
  build_prompt w (modules w) = Ok prompt ->
  create_recommendation cfg service now w =
  let call := {| call_model := GEMINI_MODEL cfg;
                 call_prompt := prompt;
                 call_temperature := GEMINI_TEMPERATURE cfg;
                 call_max_tokens := GEMINI_MAX_TOKENS cfg |} in
  let w1 := set_calls (gemini_calls w ++ [call]) w in
  let failed (msg : string) :=
    (w1, Ok (respond
               (VDict [("error", VStr "Fehler bei der KI-Generierung");
                       ("message", VStr msg)]) 500)) in
  match service call with
  | Ok (Some t) =>
      if (String.length t =? 0)%nat
      then failed "Keine Antwort von Gemini API erhalten"
      else
        let r := {| rec_id := next_id (map rec_id (ai_recommendations w));
                    rec_text := t;
                    rec_created_at := now |} in
        (set_recommendations (ai_recommendations w ++ [r]) w1,
         Ok (respond (AIRecommendation_to_dict r) 201))
  | Ok None => failed "Keine Antwort von Gemini API erhalten"
  | Raise e => failed (str_exn e)
  | OutOfModel => (w1, OutOfModel)
  end.
Proof.
  intros key_set key_real Hms Hp.
  unfold create_recommendation, try_except, bind, read, lift, ret, raise,
    generate_content, commit_new_recommendation.
  rewrite (key_configured cfg key_set key_real).
  destruct (modules w) as [|m ms] eqn:Em; [now elim Hms|].
  rewrite Hp. cbv beta iota zeta.
  destruct (service _) as [[t|]|e|]; try reflexivity.
  destruct (String.length t =? 0)%nat; reflexivity.
Qed.

Lemma length_zero_empty (t : string) :
  (String.length t =? 0)%nat = true <-> t = "".
Proof.
  destruct t; cbn; split; intros H; try reflexivity; discriminate H.
Qed.

(** X14. A text that comes back is stored and answered 201, and it is what
    Recommendation Get answers next. With a credential and a module, when
    the service returns a text that is not empty, the text is stored as
    one new recommendation with the current time, under a key no stored
    recommendation has; the request that was sent carries the prompt and
    the configured model, temperature and token limit. If the clock has
    advanced since every stored recommendation was created, the next
    Recommendation Get answers 200 with the same object. *)
Theorem recommendation_stored_then_served
  (cfg : config) (service : gemini_call -> result (option string))
  (now : Z) (w : world) (prompt t : string) :
  GEMINI_API_KEY cfg <> "" ->
  GEMINI_API_KEY cfg <> "your-api-key-here" ->
  modules w <> [] ->
  build_prompt w (modules w) = Ok prompt ->
  service {| call_model := GEMINI_MODEL cfg;
             call_prompt := prompt;
             call_temperature := GEMINI_TEMPERATURE cfg;
             call_max_tokens := GEMINI_MAX_TOKENS cfg |} = Ok (Some t) ->
  t <> "" ->
  exists r,
    rec_text r = t /\ rec_created_at r = now /\
    ~ In (rec_id r) (map rec_id (ai_recommendations w)) /\
    create_recommendation cfg service now w =
      (set_recommendations (ai_recommendations w ++ [r])
         (set_calls
            (gemini_calls w ++
             [{| call_model := GEMINI_MODEL cfg;
                 call_prompt := prompt;
                 call_temperature := GEMINI_TEMPERATURE cfg;
                 call_max_tokens := GEMINI_MAX_TOKENS cfg |}]) w),
       Ok (respond (AIRecommendation_to_dict r) 201)) /\
    ((forall r', In r' (ai_recommendations w) -> rec_created_at r' < now) ->
     snd (get_recommendation (fst (create_recommendation cfg service now w)))
     = Ok (respond (AIRecommendation_to_dict r) 200)).
Proof.
  intros key_set key_real Hms Hp Hs Ht.
  pose proof (create_recommendation_sends cfg service now w prompt
                key_set key_real Hms Hp) as Heq.
  cbv zeta in Heq. rewrite Hs in Heq.
  destruct (String.length t =? 0)%nat eqn:El;
    [apply length_zero_empty in El; contradiction|].
  eexists. split; [|split; [|split; [|split; [exact Heq|]]]];
    try reflexivity.
  - cbn [rec_id]. apply next_id_fresh.
  - intros Hclock. rewrite Heq. cbn [fst].
    match goal with |- snd (get_recommendation ?w1) = _ => set (w' := w1) end.
    pose proof (latest_recommendation_most_recent w') as Hlatest.
    unfold get_recommendation, try_except, bind, read, ret.
    destruct (latest_recommendation w') as [r'|]; cbn [most_recent] in Hlatest.
    + destruct Hlatest as [Hin Hmax]. cbn [snd]. do 3 f_equal.
      subst w'. cbn [ai_recommendations set_recommendations] in Hin, Hmax.
      apply in_app_or in Hin. destruct Hin as [Hin|[<-|[]]]; [|reflexivity].
      exfalso. apply Hclock in Hin.
      match type of Hmax with
      | forall x, In x (_ ++ [?r]) -> _ =>
          assert (Hr : rec_created_at r <= rec_created_at r')
            by (apply Hmax, in_or_app; right; left; reflexivity)
      end.
      cbn [rec_created_at] in Hr. lia.
    + subst w'. cbn [ai_recommendations set_recommendations] in Hlatest.
      now destruct (ai_recommendations w).
Qed.

(** X15. A call that fails stores nothing. With a credential and a module,
    when the service raises, returns no response or returns an empty text,
    the request has been sent, no recommendation is stored, and the answer
    is 500 with the error 'Fehler bei der KI-Generierung' and, as message,
    the text of the exception, or 'Keine Antwort von Gemini API erhalten'
    where there was none. *)
Theorem upstream_failure_stores_nothing
  (cfg : config) (service : gemini_call -> result (option string))
  (now : Z) (w : world) (prompt msg : string) :
  GEMINI_API_KEY cfg <> "" ->
  GEMINI_API_KEY cfg <> "your-api-key-here" ->
  modules w <> [] ->
  build_prompt w (modules w) = Ok prompt ->
  (exists e,
     service {| call_model := GEMINI_MODEL cfg;
                call_prompt := prompt;
                call_temperature := GEMINI_TEMPERATURE cfg;
                call_max_tokens := GEMINI_MAX_TOKENS cfg |} = Raise e /\
     msg = str_exn e)
  \/
  ((service {| call_model := GEMINI_MODEL cfg;
               call_prompt := prompt;
               call_temperature := GEMINI_TEMPERATURE cfg;
               call_max_tokens := GEMINI_MAX_TOKENS cfg |} = Ok None \/
    service {| call_model := GEMINI_MODEL cfg;
               call_prompt := prompt;
               call_temperature := GEMINI_TEMPERATURE cfg;
               call_max_tokens := GEMINI_MAX_TOKENS cfg |} = Ok (Some "")) /\
   msg = "Keine Antwort von Gemini API erhalten") ->
  create_recommendation cfg service now w =
    (set_calls
       (gemini_calls w ++
        [{| call_model := GEMINI_MODEL cfg;
            call_prompt := prompt;
            call_temperature := GEMINI_TEMPERATURE cfg;
            call_max_tokens := GEMINI_MAX_TOKENS cfg |}]) w,
     Ok (respond
           (VDict [("error", VStr "Fehler bei der KI-Generierung");
                   ("message", VStr msg)]) 500)) /\
  ai_recommendations (fst (create_recommendation cfg service now w))
    = ai_recommendations w.
Proof.
  intros key_set key_real Hms Hp Hfail.
  pose proof (create_recommendation_sends cfg service now w prompt
                key_set key_real Hms Hp) as Heq.
  cbv zeta in Heq.
  destruct Hfail as [(e & Hs & ->) | [[Hs|Hs] ->]];
    rewrite Hs in Heq; rewrite Heq; split; reflexivity.
Qed.

(** What a request for a recommendation does to the recommendations and
    to the requests sent: nothing, or one request, or one request and
    one recommendation with a text. *)
Lemma create_recommendation_outcome
  (cfg : config) (service : gemini_call -> result (option string))
  (now : Z) (w : world) :
  modules (fst (create_recommendation cfg service now w)) = modules w /\
  learning_sessions (fst (create_recommendation cfg service now w))
    = learning_sessions w /\
  ((ai_recommendations (fst (create_recommendation cfg service now w))
      = ai_recommendations w /\
    (List.length (gemini_calls w)
     <= List.length (gemini_calls
                       (fst (create_recommendation cfg service now w))))%nat)
   \/
   exists r c,
     fst (create_recommendation cfg service now w)
       = set_recommendations (ai_recommendations w ++ [r])
           (set_calls (gemini_calls w ++ [c]) w) /\
     rec_text r <> "" /\
     rec_id r = next_id (map rec_id (ai_recommendations w))).
Proof.
  unfold create_recommendation. exec; cbn [fst];
    (split; [solve [reflexivity | assumption]|]); (split; [reflexivity|]).
  all: try (left; split; [reflexivity|];
            cbn [gemini_calls set_calls]; rewrite ?length_app; cbn; lia).
  right. eexists. eexists. split; [reflexivity|]. split; [|reflexivity].
  cbn [rec_text]. intros ->. discriminate.
Qed.

End Upstream.

(* ------------------------------------------------------------------ *)
(** ** What holds in every state the service reaches *)
(* ------------------------------------------------------------------ *)

Section Reached.

Context {RT : PyRuntime}.

(** X16. Every state reached from the empty store is consistent: each
    session's [module_id] is the key of a stored module, and no two
    modules and no two sessions share a key. *)
Theorem reachable_store_is_consistent (w : world) :
  reachable w ->
  (forall s, In s (learning_sessions w) ->
             exists m, In m (modules w) /\ mod_id m = ses_module_id s) /\
  NoDup (map mod_id (modules w)) /\
  NoDup (map ses_id (learning_sessions w)).
Proof.
  intros H. destruct (reachable_invariant w H) as [Href [Hm Hs]].
  split; [exact Href | split; assumption].
Qed.

Lemma module_of_referenced (w : world) (s : LearningSession) :
  sessions_reference_modules w -> In s (learning_sessions w) ->
  exists m, module_of w s = Some m /\ In m (modules w) /\
            mod_id m = ses_module_id s.
Proof.
  intros Href Hin. destruct (Href s Hin) as (m0 & Hin0 & Hid0).
  unfold module_of.
  destruct (find _ (modules w)) as [m|] eqn:Ef.
  - exists m. split; [reflexivity|]. apply find_some in Ef.
    destruct Ef as [Hm He]. apply Z.eqb_eq in He. auto.
  - exfalso. apply (find_none _ _ Ef) in Hin0.
    rewrite Hid0, Z.eqb_refl in Hin0. discriminate Hin0.
Qed.

(** X17. In every state reached from the empty store, the serialisation of
    a stored session names its module: [module_name] is the name of a
    stored module with the session's [module_id], never null. *)
Theorem stored_session_names_its_module (w : world) (s : LearningSession) :
  reachable w ->
  In s (learning_sessions w) ->
  exists m kv,
    In m (modules w) /\ mod_id m = ses_module_id s /\
    LearningSession_to_dict w s = VDict kv /\
    dict_get kv "module_name" = Some (VStr (mod_name m)).
Proof.
  intros Hr Hin.
  destruct (module_of_referenced w s (reachable_sessions_reference_modules w Hr)
              Hin) as (m & Hof & Hm & Hid).
  exists m. unfold LearningSession_to_dict. rewrite Hof.
  eexists. split; [exact Hm|]. split; [exact Hid|]. split; reflexivity.
Qed.

Lemma serve_recommendations (r : request) (w : world) :
  (ai_recommendations (fst (serve r w)) = ai_recommendations w /\
   (List.length (gemini_calls w)
    <= List.length (gemini_calls (fst (serve r w))))%nat)
  \/
  exists rec c,
    fst (serve r w)
      = set_recommendations (ai_recommendations w ++ [rec])
          (set_calls (gemini_calls w ++ [c]) w) /\
    rec_text rec <> "" /\
    rec_id rec = next_id (map rec_id (ai_recommendations w)).
Proof.
  destruct (read_only_effects w) as (H1 & H2 & H3 & H4 & H5).
  destruct r; cbn [serve]; rewrite ?H1, ?H2, ?H3, ?H4, ?H5;
    try (left; split; [reflexivity | apply Nat.le_refl]).
  - left. unfold create_module. exec; split; first [reflexivity | apply Nat.le_refl].
  - left. unfold delete_module. exec; split; first [reflexivity | apply Nat.le_refl].
  - left. unfold create_session. exec; split; first [reflexivity | apply Nat.le_refl].
  - left. unfold delete_session. exec; split; first [reflexivity | apply Nat.le_refl].
  - apply create_recommendation_outcome.
Qed.


Lemma filter_none {A : Type} (p : A -> bool) (l : list A) :
  (forall x, In x l -> p x = false) -> filter p l = [].
Proof.
  induction l as [|x xs IH]; [reflexivity|]. intros H. cbn [filter].
  rewrite (H x (or_introl eq_refl)). apply IH. intros y Hy. apply H.
  now right.
Qed.

Lemma find_snoc_fresh (ms : list ModuleRow) (m : ModuleRow) :
  ~ In (mod_id m) (map mod_id ms) ->
  find (fun x => mod_id x =? mod_id m) (ms ++ [m]) = Some m.
Proof.
  induction ms as [|y ys IH]; cbn [app find map In]; intros Hnin.
  - now rewrite Z.eqb_refl.
  - destruct (mod_id y =? mod_id m) eqn:E.
    + apply Z.eqb_eq in E. exfalso. apply Hnin. now left.
    + apply IH. intros Hin. apply Hnin. now right.
Qed.

(** X19. A module that has just been created has no hours. In every state
    reached from the empty store, a 201 of Module Create carries the key
    of the new module, which no module had before, and [actual_hours] 0,
    an int; Module Get on that key then answers 200 with an empty list of
    sessions. *)
Theorem new_module_has_no_hours (now : Z) (data : pyval) (w : world) :
  reachable w ->
  status_of (create_module now data w) = Some 201 ->
  exists i,
    reply_field (create_module now data w) "id" = Some (VInt i) /\
    find_module w i = None /\
    reply_field (create_module now data w) "actual_hours" = Some (VInt 0) /\
    status_of (get_module i (fst (create_module now data w))) = Some 200 /\
    reply_field (get_module i (fst (create_module now data w))) "sessions"
      = Some (VList []).
Proof.
  intros Hr H201.
  pose proof (reachable_sessions_reference_modules w Hr) as Href.
  destruct (create_module_created now data w H201)
    as (m & d & Heq & Hd & Hid & _).
  rewrite Heq. cbn [fst].
  set (w' := set_modules (modules w ++ [m]) w) in *.
  assert (Hfresh : ~ In (mod_id m) (map mod_id (modules w)))
    by (rewrite Hid; apply next_id_fresh).
  assert (Hnone : sessions_of w' m = []).
  { unfold sessions_of. apply filter_none. intros s Hin.
    apply Z.eqb_neq. intros E.
    destruct (Href s Hin) as (m0 & Hin0 & Hid0).
    apply Hfresh. rewrite <- E, <- Hid0. now apply in_map. }
  assert (Hfind : find_module w' (mod_id m) = Some m)
    by (apply find_snoc_fresh; exact Hfresh).
  exists (mod_id m).
  unfold Module_to_dict in Hd. rewrite get_progress_percentage_spec in Hd.
  cbn [rbind] in Hd. injection Hd as <-.
  split; [reflexivity|]. split; [|split; [|split]].
  - destruct (find_module w (mod_id m)) as [m0|] eqn:E; [|reflexivity].
    apply find_module_id in E. destruct E as [Hin E].
    exfalso. apply Hfresh. rewrite <- E. now apply in_map.
  - unfold reply_field. cbn [snd body respond dict_get String.eqb Ascii.eqb
                              Bool.eqb].
    unfold get_actual_hours. now rewrite Hnone.
  - destruct (get_module_found _ _ _ Hfind) as (d & _ & ->). reflexivity.
  - destruct (get_module_found _ _ _ Hfind) as (d & Hd & ->).
    unfold Module_to_dict in Hd. rewrite get_progress_percentage_spec in Hd.
    cbn [rbind] in Hd. injection Hd as <-. rewrite Hnone. reflexivity.
Qed.

(** X20. An accepted session counts for its module at once. After a 201 of
    Session Create, the reply names the module, the module's session list
    is the old one followed by the new session, its hours are the rounded
    float sum of the old durations and the new one, and the session lists
    of all other modules are as before. *)
Theorem accepted_session_counts_for_its_module
  (now : Z) (data : pyval) (w : world) :
  status_of (create_session now data w) = Some 201 ->
  exists s m,
    fst (create_session now data w)
      = set_sessions (learning_sessions w ++ [s]) w /\
    find_module w (ses_module_id s) = Some m /\
    reply_field (create_session now data w) "module_name"
      = Some (VStr (mod_name m)) /\
    sessions_of (fst (create_session now data w)) m
      = (sessions_of w m ++ [s])%list /\
    get_actual_hours (fst (create_session now data w)) m
      = PFloat (f_round
                  (f_sum (map ses_duration (sessions_of w m)
                          ++ [ses_duration s])%list) 2) /\
    (forall m', mod_id m' <> ses_module_id s ->
       sessions_of (fst (create_session now data w)) m' = sessions_of w m').
Proof.
  intros H201.
  destruct (create_session_created now data w H201)
    as (kv & s & -> & Heq & _ & _ & _ & Hfind & _).
  destruct (find_module w (ses_module_id s)) as [m|] eqn:Hm;
    [clear Hfind | now elim Hfind].
  pose proof (find_module_id _ _ _ Hm) as [_ Hid].
  exists s, m. rewrite Heq. cbn [fst].
  assert (Hof : sessions_of (set_sessions (learning_sessions w ++ [s]) w) m
                = (sessions_of w m ++ [s])%list).
  { unfold sessions_of. cbn [learning_sessions set_sessions].
    rewrite filter_app. cbn [filter]. now rewrite Hid, Z.eqb_refl. }
  split; [reflexivity|]. split; [exact Hm|]. split; [|split; [|split]].
  - unfold reply_field, LearningSession_to_dict, module_of.
    cbn [snd body respond modules set_sessions].
    unfold find_module in Hm. rewrite Hm. reflexivity.
  - exact Hof.
  - unfold get_actual_hours. rewrite Hof, map_app. cbn [map].
    destruct (map ses_duration (sessions_of w m)); reflexivity.
  - intros m' Hne. unfold sessions_of. cbn [learning_sessions set_sessions].
    rewrite filter_app. cbn [filter].
    destruct (ses_module_id s =? mod_id m') eqn:E;
      [apply Z.eqb_eq in E; now elim Hne | apply app_nil_r].
Qed.

End Reached.

(* ------------------------------------------------------------------ *)
(** ** The service as a whole *)
(* ------------------------------------------------------------------ *)

Section Whole.

Context {RT : PyRuntime}.

(** X21. No handler lets an exception escape, and each answers with one of
    the statuses of its own [return] statements that it can reach. In
    particular Module List always answers 200, Session List answers 200
    or, for a limit the store cannot bind, 500, and the handlers that
    look a row up by key never answer 404. *)
Theorem handlers_answer_with_their_statuses (r : request) (w : world) :
  (forall e, snd (serve r w) <> Raise e) /\
  (forall resp, snd (serve r w) = Ok resp -> In (status resp) (statuses r)).
Proof.
  destruct r; cbn [serve statuses].
  - unfold create_module. exec; cbn [snd]; (split; [discriminate|]);
      intros resp E; try discriminate E; injection E as <-; cbn; auto.
  - destruct (modules_to_dicts_total w (modules w)) as (ds & Hds & _).
    unfold get_modules, try_except, bind, read, lift, ret. rewrite Hds.
    cbn [snd]. split; [discriminate|].
    intros resp E; injection E as <-; cbn; auto.
  - unfold get_module. exec; cbn [snd]; (split; [discriminate|]);
      intros resp E; try discriminate E; injection E as <-; cbn; auto.
  - unfold delete_module. exec; cbn [snd]; (split; [discriminate|]);
      intros resp E; try discriminate E; injection E as <-; cbn; auto.
  - unfold create_session. exec; cbn [snd]; (split; [discriminate|]);
      intros resp E; try discriminate E; injection E as <-; cbn; auto.
  - unfold get_sessions. exec; cbn [snd]; (split; [discriminate|]);
      intros resp E; try discriminate E; injection E as <-; cbn; auto.
  - unfold delete_session. exec; cbn [snd]; (split; [discriminate|]);
      intros resp E; try discriminate E; injection E as <-; cbn; auto.
  - unfold create_recommendation. exec; cbn [snd]; (split; [discriminate|]);
      intros resp E; try discriminate E; injection E as <-; cbn; auto.
  - unfold get_recommendation. exec; cbn [snd]; (split; [discriminate|]);
      intros resp E; try discriminate E; injection E as <-; cbn; auto.
  - unfold get_dashboard. exec; cbn [snd]; (split; [discriminate|]);
      intros resp E; try discriminate E; injection E as <-; cbn; auto.
Qed.

(** X22. The five reading handlers never write the store, whatever they
    answer, and a request for a recommendation writes neither modules nor
    sessions. *)
Theorem reading_handlers_do_not_write (w : world) :
  fst (get_modules w) = w /\
  (forall i, fst (get_module i w) = w) /\
  (forall limit, fst (get_sessions limit w) = w) /\
  fst (get_recommendation w) = w /\
  (forall today, fst (get_dashboard today w) = w) /\
  (forall cfg service now,
     modules (fst (create_recommendation cfg service now w)) = modules w /\
     learning_sessions (fst (create_recommendation cfg service now w))
       = learning_sessions w).
Proof.
  destruct (read_only_effects w) as (H1 & H2 & H3 & H4 & H5).
  repeat (split; [assumption|]).
  intros cfg service now.
  destruct (create_recommendation_outcome cfg service now w) as (Hm & Hs & _).
  split; assumption.
Qed.

(** X23. Deleting a stored module answers 200 with a message that names it
    and removes the module and exactly the sessions that refer to it; the
    recommendations stay. Afterwards Module Get on the key answers 500,
    and so does Session Delete on the key of any session the module had,
    when keys are unique. *)
Theorem delete_module_takes_its_sessions (i : Z) (w : world) (m : ModuleRow) :
  keys_unique w ->
  find_module w i = Some m ->
  status_of (delete_module i w) = Some 200 /\
  reply_field (delete_module i w) "message"
    = Some (VStr ("Modul " ++ dquote ++ mod_name m ++ dquote ++
                  " erfolgreich gelöscht")) /\
  (forall x, In x (modules (fst (delete_module i w))) <->
             In x (modules w) /\ mod_id x <> i) /\
  (forall s, In s (learning_sessions (fst (delete_module i w))) <->
             In s (learning_sessions w) /\ ses_module_id s <> i) /\
  ai_recommendations (fst (delete_module i w)) = ai_recommendations w /\
  status_of (get_module i (fst (delete_module i w))) = Some 500 /\
  (forall s, In s (learning_sessions w) -> ses_module_id s = i ->
     status_of (delete_session (ses_id s) (fst (delete_module i w)))
     = Some 500).
Proof.
  intros Hkeys Hfind.
  destruct (delete_module_cascade i w m Hfind) as (Heq & Hgone & Hsess & Hdel).
  rewrite Heq. cbn [fst].
  split; [reflexivity|]. split; [reflexivity|].
  split; [|split; [exact Hsess|split; [reflexivity|split]]].
  - intros x. cbn [without_module modules set_modules].
    rewrite filter_In, negb_true_iff, Z.eqb_neq. reflexivity.
  - now rewrite (get_module_missing i _ Hgone).
  - intros s Hin Hmod. destruct (Hdel Hkeys s Hin Hmod) as [_ ->].
    reflexivity.
Qed.

Lemma filter_length_le {A : Type} (p q : A -> bool) (l : list A) :
  (forall x, p x = true -> q x = true) ->
  (List.length (filter p l) <= List.length (filter q l))%nat.
Proof.
  intros Himp. induction l as [|x xs IH]; [apply Nat.le_refl|].
  cbn [filter]. destruct (p x) eqn:P.
  - rewrite (Himp x P). cbn [List.length]. lia.
  - destruct (q x); cbn [List.length]; lia.
Qed.

(** X24. On the dashboard of a valid date, the sessions counted for today
    are counted for the week as well: [sessions_today] and [sessions_week]
    are ints with 0 <= sessions_today <= sessions_week. *)
Theorem dashboard_counts_are_nested (w : world) (today : date) :
  valid_date today ->
  exists n_today n_week,
    statistic (get_dashboard today w) "sessions_today" = Some (VInt n_today) /\
    statistic (get_dashboard today w) "sessions_week" = Some (VInt n_week) /\
    0 <= n_today <= n_week.
Proof.
  intros Hv.
  destruct (week_start_is_monday today Hv) as (monday & Hsub & Hmon).
  destruct (month_start_is_first today Hv) as (first & Hrep & _).
  destruct (modules_to_dicts_total w (modules w)) as (ds & Hds & _).
  unfold get_dashboard, try_except, bind, lift, read, ret.
  rewrite Hsub, Hrep. cbn [opt_date]. rewrite Hds.
  eexists. eexists. split; [reflexivity|]. split; [reflexivity|].
  split; [lia|]. apply inj_le. unfold get_sessions_by_date_range.
  apply filter_length_le. intros s. unfold in_date_range.
  rewrite !andb_true_iff. intros [H1 H2]. split; [|exact H2].
  destruct Hmon as (Hvm & _ & Hle & _).
  assert (Hmt : date_leb monday today = true)
    by (rewrite (date_leb_toordinal _ _ Hvm Hv); apply Z.leb_le; exact Hle).
  apply date_leb_iff in H1, Hmt. apply date_leb_iff. lia.
Qed.

End Whole.

(* ================================================================== *)
(** * The handlers at work on a small history *)
(* ================================================================== *)

Section History.

#[local] Existing Instance Demo.runtime.

(** The example of section 8: 2 hours today, a Thursday, and 3.5 hours
    three days ago, on the Monday of the same week. *)
Example dashboard_of_the_week :
  weekday Demo.today = 3 /\
  statistic (get_dashboard Demo.today Demo.world3) "hours_today"
    = Some (VFloat 2%Q) /\
  statistic (get_dashboard Demo.today Demo.world3) "hours_week"
    = Some (VFloat (11 # 2)%Q) /\
  statistic (get_dashboard Demo.today Demo.world3) "sessions_week"
    = Some (VInt 2).
Proof. repeat split. Qed.

(** Deleting the module takes its two sessions with it; deleting one of
    them afterwards is answered 500, as is deleting the module again. *)
Example cascade_then_500 :
  let w := fst (delete_module 1 Demo.world3) in
  status_of (delete_module 1 Demo.world3) = Some 200 /\
  modules w = [] /\ learning_sessions w = [] /\
  status_of (delete_session 2 w) = Some 500 /\
  status_of (delete_module 1 w) = Some 500.
Proof. repeat split. Qed.

(** The dashboard of C2 on the Thursday of the history. *)
Lemma dashboard_statistics_witness :
  valid_date Demo.today /\
  status_of (get_dashboard Demo.today Demo.world3) = Some 200 /\
  fst (get_dashboard Demo.today Demo.world3) = Demo.world3.
Proof.
  assert (Hv : valid_date Demo.today) by reflexivity.
  split; [exact Hv|].
  destruct (dashboard_statistics Demo.world3 Demo.today Hv)
    as (monday & first & ds & _ & _ & _ & _ & Heq).
  rewrite Heq. split; reflexivity.
Defined.

(** The module is looked up before the date is parsed: a request with
    an unknown module and a date that does not parse is answered 404. *)
Example unknown_module_is_refused_first :
  dict_get Demo.unknown_module "date" = Some (VStr "morgen") /\
  validate_date (VStr "morgen") = None /\
  status_of (create_session 5 (VDict Demo.unknown_module) Demo.world1)
    = Some 404.
Proof. repeat split. Qed.


Lemma zero_duration_rejected :
  session_rejection Demo.world1 Demo.zero_duration 400.
Proof.
  apply reject_duration
    with (mid := VInt 1) (dur := VInt 0) (dt := VStr "2023-11-16");
    reflexivity.
Defined.


Lemma no_exam_date_typed : typed_module_body Demo.no_exam_date.
Proof.
  split; intros v H; cbn in H; injection H as <-.
  - eexists. reflexivity.
  - exists (inject_Z 40). repeat split. exists false. reflexivity.
Defined.

Lemma no_exam_date_stored :
  status_of (create_module 5 (VDict Demo.no_exam_date) Demo.world1) = Some 201.
Proof. reflexivity. Defined.



(** C6 as it is stated fails here: the limit 2^63 is a positive integer,
    and the answer is 500, not 200 with at most that many rows: the
    limit does not fit the store's integer, the query raises
    OverflowError and the [except] arm answers. *)
Lemma get_sessions_oversized_limit_answers_500 :
  0 < 2 ^ 63 /\
  get_sessions (Some (2 ^ 63)) Demo.world3
  = (Demo.world3, Ok (error_500 OverflowError)) /\
  status_of (get_sessions (Some (2 ^ 63)) Demo.world3) = Some 500.
Proof. repeat split. Qed.

(** The list of C6 with limit 1. *)
Lemma get_sessions_ordered_and_limited_witness :
  0 < 1 < 2 ^ 63 /\
  exists rows,
    Permutation rows (learning_sessions Demo.world3) /\
    get_sessions (Some 1) Demo.world3 =
      (Demo.world3,
       Ok (respond (VList (map (LearningSession_to_dict Demo.world3)
                               (firstn 1 rows))) 200)).
Proof.
  assert (H1 : 0 < 1 < 2 ^ 63) by (split; reflexivity).
  split; [exact H1|].
  destruct (get_sessions_ordered_and_limited Demo.world3)
    as (rows & Hperm & _ & _ & Hlimit).
  exists rows. split; [exact Hperm|].
  exact (proj1 (Hlimit 1 H1)).
Defined.


(** The precondition of C7 with no credential. *)
Lemma recommend_unconfigured_503_witness :
  (GEMINI_API_KEY Demo.unconfigured = "" \/
   GEMINI_API_KEY Demo.unconfigured = "your-api-key-here") /\
  status_of (create_recommendation Demo.unconfigured Demo.service 7
               Demo.world3) = Some 503 /\
  fst (create_recommendation Demo.unconfigured Demo.service 7 Demo.world3)
    = Demo.world3.
Proof.
  split; [left; reflexivity|].
  destruct (recommend_unconfigured_503 Demo.unconfigured Demo.service 7
              Demo.world3 (or_introl eq_refl)) as (Heq & _ & _).
  rewrite Heq. split; reflexivity.
Defined.

Lemma configured_key :
  GEMINI_API_KEY Demo.configured <> "" /\
  GEMINI_API_KEY Demo.configured <> "your-api-key-here".
Proof. split; discriminate. Defined.

(** The preconditions of C8 with a credential: no module, then the
    module of the history, whose line the prompt carries. *)
Lemma recommendation_needs_modules_witness :
  GEMINI_API_KEY Demo.configured <> "" /\
  GEMINI_API_KEY Demo.configured <> "your-api-key-here" /\
  modules empty_world = [] /\
  status_of (create_recommendation Demo.configured Demo.service 7 empty_world)
    = Some 400 /\
  modules Demo.world3 <> [] /\
  exists prompt,
    contains prompt
      ("- Mathe: Ziel 10.0h, bereits gelernt 5.5h, noch 4.5h offen" ++
       " (Prüfung am 29.02.2024)" ++ newline).
Proof.
  destruct configured_key as [H1 H2].
  split; [exact H1|]. split; [exact H2|]. split; [reflexivity|].
  split.
  - destruct (recommendation_needs_modules Demo.configured Demo.service 7
                empty_world H1 H2) as [Hnone _].
    rewrite (Hnone eq_refl). reflexivity.
  - assert (Hsome : modules Demo.world3 <> []).
    { intros H. apply (f_equal (@List.length _)) in H. discriminate H. }
    split; [exact Hsome|].
    destruct (recommendation_needs_modules Demo.configured Demo.service 7
                Demo.world3 H1 H2) as [_ Hprompt].
    destruct (Hprompt Hsome) as (prompt & _ & _ & Hlines).
    exists prompt.
    assert (Hin : In {| mod_id := 1; mod_name := "Mathe";
                        mod_target_hours := 10%Q;
                        mod_exam_date := Some (mkDate 2024 2 29);
                        mod_created_at := 1699860000 |}
                     (modules Demo.world3))
      by (left; reflexivity).
    exact (Hlines _ Hin).
Defined.

End History.

(* ================================================================== *)
(** * The further properties on the history *)
(* ================================================================== *)

Section Walkthrough.

#[local] Existing Instance Demo.runtime.

(** The history is one the service reaches: three requests from the
    empty store. *)
Lemma history_reachable :
  reachable Demo.world1 /\ reachable Demo.world2 /\ reachable Demo.world3.
Proof.
  assert (H1 : reachable Demo.world1)
    by exact (reachable_serve empty_world
                (POST_modules 1699860000 Demo.mathe) reachable_empty).
  assert (H2 : reachable Demo.world2)
    by exact (reachable_serve Demo.world1
                (POST_sessions 1699900000 Demo.monday_session) H1).
  assert (H3 : reachable Demo.world3)
    by exact (reachable_serve Demo.world2
                (POST_sessions 1700150000 Demo.thursday_session) H2).
  split; [exact H1 | split; [exact H2 | exact H3]].
Defined.

Lemma history_has_a_module : modules Demo.world3 <> [].
Proof.
  intros H. apply (f_equal (@List.length _)) in H. discriminate H.
Defined.

(** X1: the Thursday session is within the model and is stored. *)
Lemma create_session_all_or_nothing_witness :
  snd (create_session 1700150000 Demo.thursday_session Demo.world2)
    <> OutOfModel /\
  status_of (create_session 1700150000 Demo.thursday_session Demo.world2)
    = Some 201.
Proof.
  assert (Hin : snd (create_session 1700150000 Demo.thursday_session
                       Demo.world2) <> OutOfModel)
    by (intros E; discriminate E).
  split; [exact Hin|].
  destruct (create_session_all_or_nothing 1700150000 Demo.thursday_session
              Demo.world2 Hin) as [[H201 _] | (r & Heq & Hne)].
  - exact H201.
  - reflexivity.
Defined.

(** X2: so is the module without an exam date. *)
Lemma create_module_all_or_nothing_witness :
  snd (create_module 5 (VDict Demo.no_exam_date) Demo.world1) <> OutOfModel /\
  status_of (create_module 5 (VDict Demo.no_exam_date) Demo.world1)
    = Some 201.
Proof.
  assert (Hin : snd (create_module 5 (VDict Demo.no_exam_date) Demo.world1)
                <> OutOfModel)
    by (intros E; discriminate E).
  split; [exact Hin|].
  destruct (create_module_all_or_nothing 5 (VDict Demo.no_exam_date)
              Demo.world1 Hin) as [[H201 _] | (r & Heq & Hne)].
  - exact H201.
  - reflexivity.
Defined.


(** X4: forty hours sent as text. *)
Lemma create_module_non_numeric_target_hours_witness :
  status_of (create_module 5
               (VDict [("name", VStr "Chemie"); ("target_hours", VStr "40")])
               Demo.world1) = Some 500.
Proof.
  rewrite (create_module_non_numeric_target_hours 5
             [("name", VStr "Chemie"); ("target_hours", VStr "40")]
             Demo.world1 (VStr "Chemie") (VStr "40") eq_refl eq_refl
             (or_intror (or_introl (ex_intro _ "40" eq_refl)))).
  reflexivity.
Defined.

(** X5: two hours sent as text. *)
Lemma create_session_non_numeric_duration_witness :
  status_of (create_session 5
               (VDict [("module_id", VInt 1); ("duration", VStr "2");
                       ("date", VStr "2023-11-16")])
               Demo.world1) = Some 500.
Proof.
  rewrite (create_session_non_numeric_duration 5
             [("module_id", VInt 1); ("duration", VStr "2");
              ("date", VStr "2023-11-16")]
             Demo.world1 (VInt 1) (VStr "2") (VStr "2023-11-16")
             eq_refl eq_refl eq_refl
             (or_intror (or_introl (ex_intro _ "2" eq_refl)))).
  reflexivity.
Defined.

(** X6: a module whose name is null. *)
Lemma create_module_null_name_witness :
  create_module 5 (VDict [("name", VNone); ("target_hours", VInt 10)])
    Demo.world1
  = (Demo.world1, Ok (error_500 IntegrityError)).
Proof.
  exact (create_module_null_name 5
           [("name", VNone); ("target_hours", VInt 10)] Demo.world1
           (VInt 10) (f_of_Z 10) eq_refl eq_refl eq_refl eq_refl eq_refl).
Defined.

(** X7: the module of the history with its two sessions. *)
Lemma get_module_shows_the_module_witness :
  exists m kv,
    find_module Demo.world3 1 = Some m /\
    get_module 1 Demo.world3 = (Demo.world3, Ok (respond (VDict kv) 200)) /\
    dict_get kv "name" = Some (VStr "Mathe").
Proof.
  eexists. 
  assert (Hfind : find_module Demo.world3 1
                  = Some {| mod_id := 1; mod_name := "Mathe";
                            mod_target_hours := 10%Q;
                            mod_exam_date := Some (mkDate 2024 2 29);
                            mod_created_at := 1699860000 |})
    by reflexivity.
  destruct (get_module_shows_the_module 1 Demo.world3 _ Hfind)
    as (kv & Heq & _ & Hname & _).
  exists kv. split; [exact Hfind | split; [exact Heq | exact Hname]].
Defined.



(** X10: deleting the Thursday session leaves the Monday session. *)
Lemma delete_session_removes_the_session_witness :
  exists s,
    find_session Demo.world3 2 = Some s /\
    status_of (delete_session 2 Demo.world3) = Some 200 /\
    status_of (delete_session 2 (fst (delete_session 2 Demo.world3)))
      = Some 500.
Proof.
  assert (Hfind : find_session Demo.world3 2
                  = Some {| ses_id := 2; ses_module_id := 1;
                            ses_duration := 2%Q;
                            ses_date := mkDate 2023 11 16;
                            ses_notes := Some "";
                            ses_created_at := 1700150000 |})
    by reflexivity.
  eexists. split; [exact Hfind|].
  destruct (delete_session_removes_the_session 2 Demo.world3 _ Hfind)
    as (H200 & _ & _ & _ & _ & _ & H500).
  split; [exact H200 | exact H500].
Defined.

(** X11: a second module comes and goes; the first is shown as before. *)
Lemma delete_module_leaves_other_modules_witness :
  1 <> 2 /\
  snd (get_module 1
         (fst (delete_module 2
                 (fst (create_module 5 (VDict Demo.no_exam_date)
                         Demo.world3)))))
  = snd (get_module 1
           (fst (create_module 5 (VDict Demo.no_exam_date) Demo.world3))).
Proof.
  assert (Hne : 1 <> 2) by discriminate.
  split; [exact Hne|].
  exact (delete_module_leaves_other_modules 2 1 _ Hne).
Defined.

(** X14: the plan the demonstration service returns is stored and served. *)
Lemma recommendation_stored_then_served_witness :
  exists prompt r,
    build_prompt Demo.world3 (modules Demo.world3) = Ok prompt /\
    rec_text r = "Tag 1: Mathe, 2 Stunden" /\
    status_of (create_recommendation Demo.configured Demo.service 1700200000
                 Demo.world3) = Some 201 /\
    snd (get_recommendation
           (fst (create_recommendation Demo.configured Demo.service 1700200000
                   Demo.world3)))
    = Ok (respond (AIRecommendation_to_dict r) 200).
Proof.
  destruct (build_prompt Demo.world3 (modules Demo.world3)) as [prompt| |]
    eqn:Hp; [| exfalso; rewrite build_prompt_spec in Hp; discriminate Hp
             | exfalso; rewrite build_prompt_spec in Hp; discriminate Hp].
  assert (Ht : "Tag 1: Mathe, 2 Stunden" <> "") by discriminate.
  destruct (recommendation_stored_then_served Demo.configured Demo.service
              1700200000 Demo.world3 prompt "Tag 1: Mathe, 2 Stunden"
              (proj1 configured_key) (proj2 configured_key)
              history_has_a_module Hp eq_refl Ht)
    as (r & Htext & _ & _ & Heq & Hget).
  exists prompt, r. split; [reflexivity|]. split; [exact Htext|].
  split; [rewrite Heq; reflexivity|].
  apply Hget. intros r' [].
Defined.

(** X15: a service that is out of quota. *)
Lemma upstream_failure_stores_nothing_witness :
  status_of (create_recommendation Demo.configured
               (fun _ => Raise (UpstreamError "quota")) 1700200000
               Demo.world3) = Some 500 /\
  reply_field (create_recommendation Demo.configured
                 (fun _ => Raise (UpstreamError "quota")) 1700200000
                 Demo.world3) "message" = Some (VStr "quota") /\
  ai_recommendations
    (fst (create_recommendation Demo.configured
            (fun _ => Raise (UpstreamError "quota")) 1700200000 Demo.world3))
  = [].
Proof.
  destruct (build_prompt Demo.world3 (modules Demo.world3)) as [prompt| |]
    eqn:Hp; [| exfalso; rewrite build_prompt_spec in Hp; discriminate Hp
             | exfalso; rewrite build_prompt_spec in Hp; discriminate Hp].
  destruct (upstream_failure_stores_nothing Demo.configured
              (fun _ => Raise (UpstreamError "quota")) 1700200000
              Demo.world3 prompt "quota"
              (proj1 configured_key) (proj2 configured_key)
              history_has_a_module Hp
              (or_introl (ex_intro _ (UpstreamError "quota")
                            (conj eq_refl eq_refl))))
    as (Heq & Hrecs).
  rewrite Hrecs, Heq. repeat split.
Defined.

(** X16 on the history. *)
Lemma reachable_store_is_consistent_witness :
  reachable Demo.world3 /\
  NoDup (map mod_id (modules Demo.world3)) /\
  NoDup (map ses_id (learning_sessions Demo.world3)).
Proof.
  pose proof (proj2 (proj2 history_reachable)) as Hr.
  split; [exact Hr|].
  exact (proj2 (reachable_store_is_consistent Demo.world3 Hr)).
Defined.

(** X17: the Monday session names Mathe. *)
Lemma stored_session_names_its_module_witness :
  exists s m kv,
    In s (learning_sessions Demo.world3) /\
    LearningSession_to_dict Demo.world3 s = VDict kv /\
    dict_get kv "module_name" = Some (VStr (mod_name m)).
Proof.
  pose proof (proj2 (proj2 history_reachable)) as Hr.
  assert (Hin : In {| ses_id := 1; ses_module_id := 1;
                      ses_duration := (7 # 2)%Q;
                      ses_date := mkDate 2023 11 13;
                      ses_notes := Some "Analysis";
                      ses_created_at := 1699900000 |}
                   (learning_sessions Demo.world3))
    by (left; reflexivity).
  destruct (stored_session_names_its_module Demo.world3 _ Hr Hin)
    as (m & kv & _ & _ & Hd & Hname).
  eexists. exists m, kv. split; [exact Hin | split; [exact Hd | exact Hname]].
Defined.


(** X19: Physik is created with key 2 and no hours. *)
Lemma new_module_has_no_hours_witness :
  reachable Demo.world1 /\
  status_of (create_module 5 (VDict Demo.no_exam_date) Demo.world1)
    = Some 201 /\
  reply_field (create_module 5 (VDict Demo.no_exam_date) Demo.world1)
    "actual_hours" = Some (VInt 0).
Proof.
  pose proof (proj1 history_reachable) as Hr.
  assert (H201 : status_of (create_module 5 (VDict Demo.no_exam_date)
                              Demo.world1) = Some 201) by reflexivity.
  split; [exact Hr | split; [exact H201|]].
  destruct (new_module_has_no_hours 5 (VDict Demo.no_exam_date) Demo.world1
              Hr H201) as (i & _ & _ & Hhours & _).
  exact Hhours.
Defined.

(** X20: the Thursday session counts for Mathe. *)
Lemma accepted_session_counts_for_its_module_witness :
  status_of (create_session 1700150000 Demo.thursday_session Demo.world2)
    = Some 201 /\
  exists m,
    reply_field (create_session 1700150000 Demo.thursday_session Demo.world2)
      "module_name" = Some (VStr (mod_name m)).
Proof.
  assert (H201 : status_of (create_session 1700150000 Demo.thursday_session
                              Demo.world2) = Some 201) by reflexivity.
  split; [exact H201|].
  destruct (accepted_session_counts_for_its_module 1700150000
              Demo.thursday_session Demo.world2 H201)
    as (s & m & _ & _ & Hname & _).
  exists m. exact Hname.
Defined.

(** X23: deleting Mathe takes both sessions. *)
Lemma delete_module_takes_its_sessions_witness :
  keys_unique Demo.world3 /\
  (exists m, find_module Demo.world3 1 = Some m) /\
  status_of (delete_module 1 Demo.world3) = Some 200 /\
  status_of (get_module 1 (fst (delete_module 1 Demo.world3))) = Some 500.
Proof.
  pose proof (proj2 (reachable_invariant Demo.world3
                       (proj2 (proj2 history_reachable)))) as Hkeys.
  assert (Hfind : find_module Demo.world3 1
                  = Some {| mod_id := 1; mod_name := "Mathe";
                            mod_target_hours := 10%Q;
                            mod_exam_date := Some (mkDate 2024 2 29);
                            mod_created_at := 1699860000 |})
    by reflexivity.
  split; [exact Hkeys|]. split; [eexists; exact Hfind|].
  destruct (delete_module_takes_its_sessions 1 Demo.world3 _ Hkeys Hfind)
    as (H200 & _ & _ & _ & _ & H500 & _).
  split; [exact H200 | exact H500].
Defined.

(** X24: one session today, two this week. *)
Lemma dashboard_counts_are_nested_witness :
  valid_date Demo.today /\
  exists n_today n_week,
    statistic (get_dashboard Demo.today Demo.world3) "sessions_today"
      = Some (VInt n_today) /\
    statistic (get_dashboard Demo.today Demo.world3) "sessions_week"
      = Some (VInt n_week) /\
    0 <= n_today <= n_week.
Proof.
  assert (Hv : valid_date Demo.today) by reflexivity.
  split; [exact Hv|].
  exact (dashboard_counts_are_nested Demo.world3 Demo.today Hv).
Defined.

End Walkthrough.
